(** * bson-schema-to-typescript: the schema annotation engine

    A shallow embedding of [src/compile.ts] (the type mapper [buildTsType],
    the annotator [addTsType], the detector [hasDecimal128] and the
    orchestrator [compileBSON]) and of the configuration parser
    [parseConfig], followed by the properties of these functions. *)

From Stdlib Require Import List String Ascii ZArith Bool Lia.
From Equations Require Import Equations.
From stdpp Require Import base option gmap strings.
Import ListNotations.
Local Open Scope string_scope.
Local Open Scope list_scope.
Set Warnings "-register-all".

(** ** JSON values *)

(** Modelled from the spec: the type declarations of [./types]
    ([JsonValue], [JsonObject]) are not part of the sources at hand; section 3
    of the specification gives a schema node as a sum over object, array,
    string, number, boolean and null.  The field list of [JObj] is the
    object's own entries in enumeration order, as [Object.entries] yields
    them.  The payload of [JNum] is never inspected by the code below. *)
Inductive JsonValue : Set :=
| JNull
| JBool (b : bool)
| JNum (n : Z)
| JStr (s : string)
| JArr (l : list JsonValue)
| JObj (fs : list (string * JsonValue)).

Definition JsonObject : Set := list (string * JsonValue).

(** [Array.isArray]. *)
Definition isArray (v : JsonValue) : bool :=
  match v with JArr _ => true | _ => false end.

(** [typeof v === "object"]: holds of objects, arrays and [null]. *)
Definition typeof_object (v : JsonValue) : bool :=
  match v with JNull | JArr _ | JObj _ => true | _ => false end.

(** [typeof v === "string"]. *)
Definition typeof_string (v : JsonValue) : bool :=
  match v with JStr _ => true | _ => false end.

(** [key in o] and [Reflect.has(o, key)] on an object made of own entries. *)
Definition has_key (key : string) (o : JsonObject) : bool :=
  existsb (fun kv => String.eqb (fst kv) key) o.

(** Property read [o.key]; [None] is [undefined]. *)
Fixpoint obj_get (key : string) (o : JsonObject) : option JsonValue :=
  match o with
  | [] => None
  | (k, v) :: o' => if String.eqb k key then Some v else obj_get key o'
  end.

(** Defining the property [key] on a copy of [o], as the object literal
    [{...o, [key]: v}] does: an entry already there keeps its place and takes
    the new value, a new entry goes last.  (An array index would be
    enumerated before the other keys; the code below sets [tsType], which is
    none, and otherwise sets the keys of an object in their enumeration
    order.) *)
Fixpoint obj_set (key : string) (v : JsonValue) (o : JsonObject) : JsonObject :=
  match o with
  | [] => [(key, v)]
  | (k, w) :: o' =>
      if String.eqb k key then (key, v) :: o' else (k, w) :: obj_set key v o'
  end.

(** Truthiness of a string: every string but the empty one. *)
Definition truthy (s : string) : bool := negb (String.eqb s "").

(** [x || null] on a [string | undefined]. *)
Definition or_null (x : option string) : option string :=
  match x with
  | Some s => if truthy s then Some s else None
  | None => None
  end.

(** [Array.prototype.join] on an array of [string | null]: a [null] element
    is rendered as the empty string. *)
Definition join (sep : string) (l : list (option string)) : string :=
  String.concat sep (List.map (default "") l).

(** [v === s] for a string [s]: strict equality, so only a string can be
    equal to it. *)
Definition strict_eq_string (v : JsonValue) (s : string) : bool :=
  match v with JStr t => String.eqb t s | _ => false end.

(** [Array.prototype.includes] looking for a string. *)
Definition includes (l : list JsonValue) (s : string) : bool :=
  existsb (fun e => strict_eq_string e s) l.

(** A list paired with the evidence that each element comes from it; the
    recursive calls of [addTsType] go through it. *)
Fixpoint attach_from {A : Type} (l : list A) :
  forall (whole : list A), incl l whole -> list {x : A | In x whole} :=
  match l with
  | [] => fun _ _ => []
  | x :: l' => fun whole H =>
      exist _ x (H x (or_introl eq_refl))
      :: attach_from l' whole (fun y Hy => H y (or_intror Hy))
  end.

Definition attach {A : Type} (l : list A) : list {x : A | In x l} :=
  attach_from l l (fun _ H => H).

(** Number of array and object nodes of a value. *)
Fixpoint json_size (v : JsonValue) : nat :=
  match v with
  | JArr l => S (list_sum (List.map json_size l))
  | JObj fs => S (list_sum (List.map (fun kv => json_size (snd kv)) fs))
  | _ => 0
  end.

(** ** compile.ts *)

(** [bsonToTs]: BSON types -> TS. *)
Definition bsonToTs_entries : list (string * string) :=
  [ ("number", "number");
    ("string", "string");
    ("bool", "boolean");
    ("date", "Date");
    ("null", "null");
    ("decimal", "Decimal128") ].

Definition bsonToTs : gmap string string := list_to_map bsonToTs_entries.

(** [buildTsType] on a value that is present. *)
Fixpoint buildTsType_of (bsonType : JsonValue) : option string :=
  match bsonType with
  | JArr l => Some (join "|" (List.map buildTsType_of l))
  | JStr s => or_null (bsonToTs !! s)
  | _ => None
  end.

(** [buildTsType(bsonType?: JsonValue): string | null]; the argument [None]
    is [undefined], the result [None] is [null]. *)
Definition buildTsType (bsonType : option JsonValue) : option string :=
  match bsonType with
  | Some v => buildTsType_of v
  | None => None
  end.

(** The object whose entries [addTsType] traverses:
    [!isEnum && tsType ? { ...schema, tsType } : schema]. *)
Definition with_tsType (schema : JsonObject) : JsonObject :=
  let bsonType :=
    if has_key "bsonType" schema then obj_get "bsonType" schema else None in
  let isEnum := has_key "enum" schema in
  let tsType := buildTsType bsonType in
  match tsType with
  | Some t =>
      if negb isEnum && truthy t then obj_set "tsType" (JStr t) schema
      else schema
  | None => schema
  end.

(** [addTsType]: annotates the schema objects with [tsType] properties based
    on the [bsonType].  The entries traversed in the object case are those of
    [with_tsType], which may hold a hint that is no part of [schema]: the
    recursion is on the number of array and object nodes. *)
Equations? addTsType (schema : JsonValue) : JsonValue
  by wf (json_size schema) lt :=
  addTsType (JArr l) :=
    JArr (List.map (fun e => addTsType (proj1_sig e)) (attach l));
  addTsType (JObj fs) :=
    JObj (fold_left
            (fun acc kv =>
               obj_set (fst (proj1_sig kv)) (addTsType (snd (proj1_sig kv))) acc)
            (attach (with_tsType fs)) []);
  addTsType s := s.
Proof.
  - clear addTsType. destruct e as [x Hx]; simpl.
    induction l as [|y l IH]; simpl in *; [contradiction|].
    destruct Hx as [->|Hx]; [lia|]. specialize (IH Hx). lia.
  - clear addTsType. destruct kv as [[k x] Hx]; simpl.
    assert (Hset : forall key v o, In (k, x) (obj_set key v o) ->
                                   (k, x) = (key, v) \/ In (k, x) o).
    { intros key v o; induction o as [|[k' w] o IH]; simpl.
      - intros [H|[]]; auto.
      - destruct (String.eqb k' key); simpl; intros [H|H]; auto.
        destruct (IH H); auto. }
    assert (Hin : In (k, x) fs -> json_size x < S (list_sum (List.map (fun kv => json_size (snd kv)) fs))).
    { clear. induction fs as [|[k' w] fs IH]; simpl; [contradiction|].
      intros [H|H]; [inversion H; subst; lia|]. specialize (IH H). lia. }
    unfold with_tsType in Hx.
    destruct (buildTsType _) as [t|]; [|auto].
    destruct (negb _ && truthy t); [|auto].
    destruct (Hset _ _ _ Hx) as [H|H]; [|auto].
    inversion H; subst; simpl; lia.
Qed.

(** [hasDecimal128]: does the schema hold a [bsonType] that is, or lists,
    ["decimal"]? *)
Fixpoint hasDecimal128 (schema : JsonValue) : bool :=
  match schema with
  | JArr l => existsb hasDecimal128 l
  | JObj fs =>
      existsb
        (fun kv =>
           let key := fst kv in
           let value := snd kv in
           if String.eqb key "bsonType" then
             if strict_eq_string value "decimal" then true
             else
               match value with
               | JArr a => includes a "decimal"
               | _ => if typeof_object value then hasDecimal128 value else false
               end
           else if typeof_object value then hasDecimal128 value else false)
        fs
  | _ => false
  end.

(** The value of a compiler option: a flag, an array of lines, a string,
    [null], an object such as [$refOptions], or [undefined], which
    [Partial] lets the caller give for any key. *)
Inductive OptionValue : Set :=
| OBool (b : bool)
| OLines (lines : list string)
| OString (s : string)
| ONull
| OObject (o : JsonObject)
| OUndefined.

(** An options object, keyed by option name. *)
Abbreviation CompileOptions := (gmap string OptionValue).

(** The line feed of ["\n"]. *)
Definition newline : string := String "010"%char EmptyString.

(** The banner shared by [DEFAULT_OPTIONS] and [defaultOptions]. *)
Definition banner_lines : list string :=
  [ "/* eslint-disable */";
    "/* tslint:disable */";
    "/**";
    "* This file was automatically generated by bson-schema-to-typescript.";
    "* DO NOT MODIFY IT BY HAND. Instead, modify the source JSONSchema file,";
    "* and run bson-schema-to-typescript to regenerate this file.";
    "*/" ].

Definition import_Decimal128 : string := "import { Decimal128 } from 'bson';".

(** The characters of a string, each as a string of its own; a string is
    the sequence of its characters here. *)
Definition characters (s : string) : list string :=
  List.map (fun c => String c EmptyString) (list_ascii_of_string s).

(** The array spread [[...v]] of an option value: the lines of an array and
    the characters of a string, which are the iterable values; [None] when
    the spread throws, as it does on [undefined] (also the value of a key
    that is absent), [null], a boolean and a plain object. *)
Definition spread (v : option OptionValue) : option (list string) :=
  match v with
  | Some (OLines lines) => Some lines
  | Some (OString s) => Some (characters s)
  | _ => None
  end.

Section CompileBSON.

(** [process.cwd()] when the module is loaded. *)
Variable cwd : string.

(** The generic compiler of json-schema-to-typescript, a black box taking
    the schema, the root name and the options. *)
Variable Output : Type.
Variable compileJSON : JsonValue -> string -> CompileOptions -> Output.

Definition DEFAULT_OPTIONS : CompileOptions :=
  list_to_map
    [ ("$refOptions", OObject []);
      ("bannerComment", OLines banner_lines);
      ("cwd", OString cwd);
      ("declareExternallyReferenced", OBool true);
      ("enableConstEnums", OBool true);
      ("ignoreMinAndMaxItems", OBool false);
      ("strictIndexSignatures", OBool false);
      ("style", ONull);
      ("unreachableDefinitions", OBool false);
      ("unknownAny", OBool true) ].

(** [{ ...DEFAULT_OPTIONS, ...options }]: the later spread wins, and an
    absent [options] spreads nothing. *)
Definition mergedOptions (options : option CompileOptions) : CompileOptions :=
  default ∅ options ∪ DEFAULT_OPTIONS.

(** The lines added to the banner. *)
Definition imports (schema : JsonValue) : list string :=
  if hasDecimal128 schema then [import_Decimal128] else [].

(** [compileBSON].  The banner is [[...bannerComment, ...imports].join("\n")]
    on the merged options; [None] stands for the call in which that spread
    throws, before the compiler is reached. *)
Definition compileBSON (schema : JsonValue) (options : option CompileOptions)
  : option Output :=
  let newSchema := addTsType schema in
  let merged := mergedOptions options in
  match spread (merged !! "bannerComment") with
  | Some bannerComment =>
      let opts :=
        <["bannerComment" :=
            OString (String.concat newline (bannerComment ++ imports schema))]>
          merged in
      Some (compileJSON newSchema "" opts)
  | None => None
  end.

End CompileBSON.

(** ** The configuration file *)

Record Env : Set := {
  MONGODB_URI : string;
  MONGODB_DATABASE : string
}.

Record Options : Set := {
  bannerComment : list string;
  enableConstEnums : bool;
  ignoreMinAndMaxItems : bool;
  strictIndexSignatures : bool;
  unknownAny : bool;
  path : string;
  env : Env
}.

Definition defaultOptions : Options := {|
  bannerComment := banner_lines;
  enableConstEnums := true;
  ignoreMinAndMaxItems := false;
  strictIndexSignatures := false;
  unknownAny := true;
  path := "src/__generated__";
  env := {| MONGODB_URI := "MONGODB_URI";
            MONGODB_DATABASE := "MONGODB_DATABASE" |}
|}.

(** The strings of an array, once [every] has found them all strings. *)
Definition as_strings (l : list JsonValue) : list string :=
  omap (fun e => match e with JStr s => Some s | _ => None end) l.

(** [typeof x === "boolean" ? x : d] on a property read. *)
Definition boolean_or (d : bool) (x : option JsonValue) : bool :=
  match x with Some (JBool b) => b | _ => d end.

(** [typeof x === "string" ? x : d] on a property read. *)
Definition string_or (d : string) (x : option JsonValue) : string :=
  match x with Some (JStr s) => s | _ => d end.

Section ParseConfig.

(** [JSON.parse]; [None] when it throws. *)
Variable JSON_parse : string -> option JsonValue.

(** The body of the [try] block; [None] when an exception leaves it. *)
Definition parseConfig_try (config : string) : option Options :=
  options ← JSON_parse config;
  match options with
  | JObj options =>
      Some {|
        bannerComment :=
          match obj_get "bannerComment" options with
          | Some (JArr l) =>
              if forallb typeof_string l then as_strings l
              else bannerComment defaultOptions
          | _ => bannerComment defaultOptions
          end;
        enableConstEnums :=
          boolean_or (enableConstEnums defaultOptions)
                     (obj_get "enableConstEnums" options);
        ignoreMinAndMaxItems :=
          boolean_or (ignoreMinAndMaxItems defaultOptions)
                     (obj_get "ignoreMinAndMaxItems" options);
        strictIndexSignatures :=
          boolean_or (strictIndexSignatures defaultOptions)
                     (obj_get "strictIndexSignatures" options);
        unknownAny :=
          boolean_or (unknownAny defaultOptions)
                     (obj_get "unknownAny" options);
        path := string_or (path defaultOptions) (obj_get "path" options);
        env :=
          match obj_get "env" options with
          | Some (JObj e) =>
              {| MONGODB_URI :=
                   string_or (MONGODB_URI (env defaultOptions))
                             (obj_get "MONGODB_URI" e);
                 MONGODB_DATABASE :=
                   string_or (MONGODB_DATABASE (env defaultOptions))
                             (obj_get "MONGODB_DATABASE" e) |}
          | _ => env defaultOptions
          end
      |}
  | _ => None
  end.

(** [parseConfig]: the [catch] clause returns the defaults. *)
Definition parseConfig (config : string) : Options :=
  match parseConfig_try config with
  | Some options => options
  | None => defaultOptions
  end.

End ParseConfig.

(** ** Notions used to state the properties *)

(** Does [needle] occur in [hay]? *)
Fixpoint occurs_in (needle hay : string) : bool :=
  String.prefix needle hay
  || match hay with
     | EmptyString => false
     | String _ rest => occurs_in needle rest
     end.

(** A hint mentions the auxiliary type when the name [Decimal128] occurs in
    it; no hint mentions nothing. *)
Definition mentions_Decimal128 (hint : option string) : bool :=
  match hint with
  | Some t => occurs_in "Decimal128" t
  | None => false
  end.

(** A marker with no nesting: not an object, and, when an array, one that
    holds no array.  A type name and a list of type names are such. *)
Definition flat_marker (v : JsonValue) : bool :=
  match v with
  | JObj _ => false
  | JArr l => forallb (fun e => negb (isArray e)) l
  | _ => true
  end.

(** A marker that maps entirely to unknown names: a value without a mapping,
    or an array of such values. *)
Definition all_unknown (marker : JsonValue) : bool :=
  match marker with
  | JArr l => forallb (fun e => bool_decide (buildTsType_of e = None)) l
  | _ => bool_decide (buildTsType_of marker = None)
  end.

(** No key occurs twice, as in every object. *)
Fixpoint unique_keys (o : JsonObject) : bool :=
  match o with
  | [] => true
  | (k, _) :: o' => negb (has_key k o') && unique_keys o'
  end.

(** A tree all of whose objects have distinct keys. *)
Fixpoint wf_json (v : JsonValue) : bool :=
  match v with
  | JArr l => forallb wf_json l
  | JObj fs => unique_keys fs && forallb (fun kv => wf_json (snd kv)) fs
  | _ => true
  end.

(** The entries of an object with [f] applied to each value. *)
Definition map_values (f : JsonValue -> JsonValue) (o : JsonObject) : JsonObject :=
  List.map (fun kv => (fst kv, f (snd kv))) o.

(** No value held under a [tsType] key, anywhere in the tree, holds a
    decimal marker. *)
Fixpoint tsType_inert (v : JsonValue) : bool :=
  match v with
  | JArr l => forallb tsType_inert l
  | JObj fs =>
      forallb
        (fun kv =>
           (if String.eqb (fst kv) "tsType" then negb (hasDecimal128 (snd kv))
            else true)
           && tsType_inert (snd kv))
        fs
  | _ => true
  end.

(** An object node that requests the auxiliary type: its [bsonType] is
    ["decimal"] or an array holding ["decimal"]. *)
Definition requests_Decimal128 (node : JsonValue) : Prop :=
  exists fs v,
    node = JObj fs /\ In ("bsonType", v) fs
    /\ (v = JStr "decimal" \/ exists a, v = JArr a /\ In (JStr "decimal") a).

(** [Reachable s n]: the node [n] is reached from [s] through object values
    and array elements, at any depth. *)
Inductive Reachable : JsonValue -> JsonValue -> Prop :=
| reach_here s : Reachable s s
| reach_element l e n : In e l -> Reachable e n -> Reachable (JArr l) n
| reach_value fs k v n : In (k, v) fs -> Reachable v n -> Reachable (JObj fs) n.

(** [Scanned s n]: as [Reachable], except that an array held under the key
    [bsonType] is a list of type names, not a subtree to descend into. *)
Inductive Scanned : JsonValue -> JsonValue -> Prop :=
| scan_here s : Scanned s s
| scan_element l e n : In e l -> Scanned e n -> Scanned (JArr l) n
| scan_value fs k v n :
    In (k, v) fs -> ~ (k = "bsonType" /\ isArray v = true) ->
    Scanned v n -> Scanned (JObj fs) n.

(** [Additive s s']: [s'] is [s] with nothing but [tsType] hints added.
    Every key of an object is kept; the value of a key other than [tsType]
    is kept up to the hints added below it; [tsType] is the only key that
    may be new or take a new value, and on an object with an [enum] key it is
    neither. *)
Inductive Additive : JsonValue -> JsonValue -> Prop :=
| additive_scalar v :
    match v with JArr _ | JObj _ => False | _ => True end -> Additive v v
| additive_array l l' : Forall2 Additive l l' -> Additive (JArr l) (JArr l')
| additive_object fs fs' :
    (forall k, has_key k fs = true -> has_key k fs' = true) ->
    (forall k, has_key k fs' = true -> has_key k fs = true \/ k = "tsType") ->
    (forall k v, In (k, v) fs -> k <> "tsType" ->
                 exists v', In (k, v') fs' /\ Additive v v') ->
    (has_key "enum" fs = true ->
     has_key "tsType" fs' = has_key "tsType" fs
     /\ forall v, In ("tsType", v) fs ->
                  exists v', In ("tsType", v') fs' /\ Additive v v') ->
    Additive (JObj fs) (JObj fs').

(** The union of section 4.1 of the specification, in its words: the elements
    without a mapping are dropped and the remaining names joined. *)
Definition mapMany_dropping (l : list JsonValue) : string :=
  String.concat "|" (omap buildTsType_of l).

(** [Unhinted fs fs']: the object [fs'] is [fs] with its values annotated and
    no hint attached: the keys are those of [fs], [tsType] among them only
    if it was there, and every value is the annotation of the value [fs]
    holds under the same key. *)
Definition Unhinted (fs fs' : JsonObject) : Prop :=
  (forall k, has_key k fs' = has_key k fs)
  /\ (forall k v', In (k, v') fs' -> exists v, In (k, v) fs /\ v' = addTsType v)
  /\ (unique_keys fs = true -> fs' = map_values addTsType fs).

(** Reading a field of a given type from the parsed file: [None] when the
    field is absent or of another type. *)
Definition read_boolean (key : string) (o : JsonObject) : option bool :=
  match obj_get key o with Some (JBool b) => Some b | _ => None end.

Definition read_string (key : string) (o : JsonObject) : option string :=
  match obj_get key o with Some (JStr s) => Some s | _ => None end.

Definition read_strings (key : string) (o : JsonObject) : option (list string) :=
  match obj_get key o with
  | Some (JArr l) =>
      mapM (fun e => match e with JStr s => Some s | _ => None end) l
  | _ => None
  end.

Definition read_object (key : string) (o : JsonObject) : option JsonObject :=
  match obj_get key o with Some (JObj e) => Some e | _ => None end.

(** [Recovered file r]: each field of [r] is the field of that name and of
    the right type in [file], or else the default of that field; so are the
    two fields of [env] when [env] is an object. *)
Definition Recovered (file : JsonObject) (r : Options) : Prop :=
  bannerComment r
  = default (bannerComment defaultOptions) (read_strings "bannerComment" file)
  /\ enableConstEnums r
     = default (enableConstEnums defaultOptions)
               (read_boolean "enableConstEnums" file)
  /\ ignoreMinAndMaxItems r
     = default (ignoreMinAndMaxItems defaultOptions)
               (read_boolean "ignoreMinAndMaxItems" file)
  /\ strictIndexSignatures r
     = default (strictIndexSignatures defaultOptions)
               (read_boolean "strictIndexSignatures" file)
  /\ unknownAny r
     = default (unknownAny defaultOptions) (read_boolean "unknownAny" file)
  /\ path r = default (path defaultOptions) (read_string "path" file)
  /\ match read_object "env" file with
     | Some e =>
         MONGODB_URI (env r)
         = default (MONGODB_URI (env defaultOptions))
                   (read_string "MONGODB_URI" e)
         /\ MONGODB_DATABASE (env r)
            = default (MONGODB_DATABASE (env defaultOptions))
                      (read_string "MONGODB_DATABASE" e)
     | None => env r = env defaultOptions
     end.

(** The callback of [Object.entries(schema).some(...)]. *)
Definition scan_entry (kv : string * JsonValue) : bool :=
  if String.eqb (fst kv) "bsonType" then
    if strict_eq_string (snd kv) "decimal" then true
    else
      match snd kv with
      | JArr a => includes a "decimal"
      | _ => if typeof_object (snd kv) then hasDecimal128 (snd kv) else false
      end
  else if typeof_object (snd kv) then hasDecimal128 (snd kv) else false.

(** What an element of a flat array contributes to the joined hint. *)
Definition hint_parts : list string :=
  [ ""; "number"; "string"; "boolean"; "Date"; "null"; "Decimal128" ].

(** ** The rest of the configuration file *)

(** [configPath] of [readConfig]. *)
Definition configPath : string := "./bson2ts.json".

(** [fs.existsSync] on the files at hand, a map from a path to the text of
    the file there. *)
Definition existsSync (files : gmap string string) (p : string) : bool :=
  bool_decide (is_Some (files !! p)).

(** [fs.readFileSync(p).toString()]; [None] when there is no such file and
    the call throws. *)
Definition readFileSync (files : gmap string string) (p : string)
  : option string :=
  files !! p.

(** [readConfig]: the text of the configuration file, or
    [JSON.stringify({})] when there is none. *)
Definition readConfig (files : gmap string string) : option string :=
  if existsSync files configPath then readFileSync files configPath
  else Some "{}".

Section LoadConfig.

Variable JSON_parse : string -> option JsonValue.

(** [loadConfig]: [parseConfig(readConfig())]; [None] when [readConfig]
    throws. *)
Definition loadConfig (files : gmap string string) : option Options :=
  config ← readConfig files;
  Some (parseConfig JSON_parse config).

End LoadConfig.

(** What [prettier.resolveConfig] settles to: a rejection, [null] when no
    configuration is found, or the options found. *)
Inductive Resolved (Value : Type) : Type :=
| Rejected
| NoConfig
| Config (options : gmap string Value).

Arguments Rejected {Value}.
Arguments NoConfig {Value}.
Arguments Config {Value} options.

Section PrettierOptions.

(** The values of prettier options, with the strings among them. *)
Variable Value : Type.
Variable of_string : string -> Value.
Variable resolveConfig : string -> Resolved Value.

(** [prettierOptions]: [{ ...options, parser: "typescript" }]; [None] when
    the awaited [resolveConfig] rejects. *)
Definition prettierOptions (path : string) : option (gmap string Value) :=
  match resolveConfig path with
  | Rejected => None
  | NoConfig => Some (<["parser" := of_string "typescript"]> ∅)
  | Config options => Some (<["parser" := of_string "typescript"]> options)
  end.

End PrettierOptions.

(** ** cli.ts *)

(** [String.prototype.padEnd] with spaces. *)
Definition padEnd (n : nat) (s : string) : string :=
  String.append s
    (string_of_list_ascii (repeat " "%char (n - String.length s))).

(** Why the callback of [main] throws: the awaited [compileBSON] failed, or
    [new Error("A schema title is required")]. *)
Inductive Failure : Set :=
| CompileFailed
| TitleRequired.

(** What the callback of [main] does for one collection: nothing, one
    [fs.writeFileSync], or a throw. *)
Inductive Outcome : Set :=
| Skipped
| Written (file content : string)
| Thrown (why : Failure).

Section Cli.

Variable cwd : string.

(** The generic compiler, which gives the generated source or rejects. *)
Variable compileJSON : JsonValue -> string -> CompileOptions -> option string.

(** The callback of [schemas.map] in [main], for one collection: the line
    it logs and what it does. *)
Definition generate (opts : option CompileOptions)
           (schema : option JsonObject) (collectionName : string)
  : string * Outcome :=
  let line :=
    String.append
      (padEnd 4 (match schema with None => "-" | Some _ => "OK" end))
      (String.append " " collectionName) in
  (line,
   match schema with
   | None => Skipped
   | Some schema =>
       match compileBSON cwd (option string) compileJSON (JObj schema) opts with
       | Some (Some output) =>
           let filename :=
             match obj_get "title" schema with
             | Some (JStr title) => title
             | _ => ""
             end in
           if truthy filename then
             Written (String.append "./src/__generated__/"
                        (String.append filename ".ts"))
                     output
           else Thrown TitleRequired
       | _ => Thrown CompileFailed
       end
   end).

End Cli.

(** ** Further notions used to state the properties *)

(** No object of the tree has a [bsonType] key. *)
Fixpoint no_bsonType (v : JsonValue) : bool :=
  match v with
  | JArr l => forallb no_bsonType l
  | JObj fs =>
      negb (has_key "bsonType" fs)
      && forallb (fun kv => no_bsonType (snd kv)) fs
  | _ => true
  end.

(** The hint [addTsType] sets on an object, if any: the mapping of its
    marker when that is truthy and the object has no [enum]. *)
Definition hint_of (fs : JsonObject) : option string :=
  match buildTsType (obj_get "bsonType" fs) with
  | Some t => if negb (has_key "enum" fs) && truthy t then Some t else None
  | None => None
  end.

(** The keys [parseConfig] reads from the file. *)
Definition recognised_keys : list string :=
  [ "bannerComment"; "enableConstEnums"; "ignoreMinAndMaxItems";
    "strictIndexSignatures"; "unknownAny"; "path"; "env" ].

(** [same_but key r r']: the two values have the same fields, but possibly
    for the field named [key]. *)
Definition same_but (key : string) (r r' : Options) : Prop :=
  (key <> "bannerComment" -> bannerComment r = bannerComment r')
  /\ (key <> "enableConstEnums" -> enableConstEnums r = enableConstEnums r')
  /\ (key <> "ignoreMinAndMaxItems" ->
      ignoreMinAndMaxItems r = ignoreMinAndMaxItems r')
  /\ (key <> "strictIndexSignatures" ->
      strictIndexSignatures r = strictIndexSignatures r')
  /\ (key <> "unknownAny" -> unknownAny r = unknownAny r')
  /\ (key <> "path" -> path r = path r')
  /\ (key <> "env" -> env r = env r').

(** An [Options] value as the JSON object that [JSON.stringify] and
    [JSON.parse] make of it. *)
Definition options_to_json (o : Options) : JsonObject :=
  [ ("bannerComment", JArr (List.map JStr (bannerComment o)));
    ("enableConstEnums", JBool (enableConstEnums o));
    ("ignoreMinAndMaxItems", JBool (ignoreMinAndMaxItems o));
    ("strictIndexSignatures", JBool (strictIndexSignatures o));
    ("unknownAny", JBool (unknownAny o));
    ("path", JStr (path o));
    ("env", JObj [ ("MONGODB_URI", JStr (MONGODB_URI (env o)));
                   ("MONGODB_DATABASE", JStr (MONGODB_DATABASE (env o))) ]) ].

(** A [bsonType] value as MongoDB has it: a type name or an array of type
    names. *)
Definition name_or_names (marker : JsonValue) : bool :=
  match marker with
  | JStr _ => true
  | JArr l => forallb typeof_string l
  | _ => false
  end.

(** A tree in which every [bsonType] is a type name or an array of type
    names. *)
Fixpoint markers_wf (v : JsonValue) : bool :=
  match v with
  | JArr l => forallb markers_wf l
  | JObj fs =>
      forallb
        (fun kv =>
           (if String.eqb (fst kv) "bsonType" then name_or_names (snd kv)
            else true)
           && markers_wf (snd kv))
        fs
  | _ => true
  end.

(** [Annotated s s']: [s'] is the annotation of [s], told without
    [addTsType]: a scalar is kept, an array is annotated element by element,
    and an object has, entry for entry and under the same keys, the
    annotations of the values of [with_tsType]. *)
Inductive Annotated : JsonValue -> JsonValue -> Prop :=
| annotated_scalar v :
    match v with JArr _ | JObj _ => False | _ => True end -> Annotated v v
| annotated_array l l' :
    Forall2 Annotated l l' -> Annotated (JArr l) (JArr l')
| annotated_object fs fs' :
    Forall2 (fun kv kv' => fst kv' = fst kv /\ Annotated (snd kv) (snd kv'))
            (with_tsType fs) fs' ->
    Annotated (JObj fs) (JObj fs').

(** Some object of the tree holds, under [tsType], a string that mentions
    [Decimal128]. *)
Fixpoint uses_Decimal128 (v : JsonValue) : bool :=
  match v with
  | JArr l => existsb uses_Decimal128 l
  | JObj fs =>
      existsb
        (fun kv =>
           (String.eqb (fst kv) "tsType"
            && match snd kv with
               | JStr t => occurs_in "Decimal128" t
               | _ => false
               end)
           || uses_Decimal128 (snd kv))
        fs
  | _ => false
  end.

(** * Properties *)

(** ** Induction over JSON trees *)

Lemma JsonValue_tree_ind (P : JsonValue -> Prop) :
  P JNull ->
  (forall b, P (JBool b)) ->
  (forall n, P (JNum n)) ->
  (forall s, P (JStr s)) ->
  (forall l, Forall P l -> P (JArr l)) ->
  (forall fs, Forall (fun kv => P (snd kv)) fs -> P (JObj fs)) ->
  forall v, P v.
Proof.
  intros Hnull Hbool Hnum Hstr Harr Hobj.
  fix IH 1. intros [ | b | n | s | l | fs ].
  - exact Hnull.
  - apply Hbool.
  - apply Hnum.
  - apply Hstr.
  - apply Harr. induction l as [|e l IHl]; constructor; [apply IH | exact IHl].
  - apply Hobj. induction fs as [|[k v] fs IHfs]; constructor;
      [apply IH | exact IHfs].
Qed.

(** ** The traversal equations of [addTsType] *)

Lemma map_attach_from {A B : Type} (f : A -> B) (l whole : list A)
      (H : incl l whole) :
  List.map (fun e => f (proj1_sig e)) (attach_from l whole H) = List.map f l.
Proof.
  revert whole H. induction l as [|x l IH]; intros whole H; simpl; [reflexivity|].
  f_equal. apply IH.
Qed.

Lemma fold_attach_from {A B : Type} (g : B -> A -> B) (l whole : list A)
      (H : incl l whole) (acc : B) :
  fold_left (fun a e => g a (proj1_sig e)) (attach_from l whole H) acc
  = fold_left g l acc.
Proof.
  revert whole H acc. induction l as [|x l IH]; intros whole H acc; simpl;
    [reflexivity|]. apply IH.
Qed.

(** [schema.map(addTsType)]. *)
Lemma addTsType_array l : addTsType (JArr l) = JArr (List.map addTsType l).
Proof.
  simp addTsType. f_equal. unfold attach. apply map_attach_from.
Qed.

(** [Object.entries(v).reduce(...)] over [v = with_tsType fs]. *)
Lemma addTsType_object fs :
  addTsType (JObj fs)
  = JObj (fold_left
            (fun acc kv => obj_set (fst kv) (addTsType (snd kv)) acc)
            (with_tsType fs) []).
Proof.
  simp addTsType. f_equal. unfold attach.
  apply (fold_attach_from
           (fun acc kv => obj_set (fst kv) (addTsType (snd kv)) acc)).
Qed.

Lemma addTsType_scalar v :
  match v with JArr _ | JObj _ => False | _ => True end -> addTsType v = v.
Proof. destruct v; simpl; intros H; try contradiction; now simp addTsType. Qed.

(** ** The scenarios of the specification, evaluated *)

Example map_number : buildTsType (Some (JStr "number")) = Some "number".
Proof. reflexivity. Qed.

Example map_decimal : buildTsType (Some (JStr "decimal")) = Some "Decimal128".
Proof. reflexivity. Qed.

Example map_bogus : buildTsType (Some (JStr "bogus")) = None.
Proof. reflexivity. Qed.

Example map_absent : buildTsType None = None.
Proof. reflexivity. Qed.

Example annotate_enum :
  addTsType (JObj [("bsonType", JStr "number");
                   ("enum", JArr [JNum 1; JNum 2; JNum 3])])
  = JObj [("bsonType", JStr "number"); ("enum", JArr [JNum 1; JNum 2; JNum 3])].
Proof. vm_compute. reflexivity. Qed.

Example annotate_bogus :
  addTsType (JObj [("bsonType", JStr "bogus")]) = JObj [("bsonType", JStr "bogus")].
Proof. vm_compute. reflexivity. Qed.

Example annotate_nested :
  addTsType
    (JObj [("type", JStr "object");
           ("properties",
            JObj [("amt", JObj [("bsonType", JStr "decimal")]);
                  ("title", JStr "X")])])
  = JObj [("type", JStr "object");
          ("properties",
           JObj [("amt", JObj [("bsonType", JStr "decimal");
                               ("tsType", JStr "Decimal128")]);
                 ("title", JStr "X")])].
Proof. vm_compute. reflexivity. Qed.

Example annotate_overwrites_hint :
  addTsType (JObj [("tsType", JStr "any"); ("bsonType", JStr "date")])
  = JObj [("tsType", JStr "Date"); ("bsonType", JStr "date")].
Proof. vm_compute. reflexivity. Qed.

Example detect_in_enum_node :
  hasDecimal128
    (JObj [("wrapper",
            JObj [("enum", JArr [JNum 1]); ("bsonType", JStr "decimal")])])
  = true.
Proof. reflexivity. Qed.

Example detect_in_union :
  hasDecimal128 (JArr [JObj [("bsonType", JArr [JStr "null"; JStr "decimal"])]])
  = true.
Proof. reflexivity. Qed.

Example detect_scalar : hasDecimal128 (JStr "decimal") = false.
Proof. reflexivity. Qed.

(** ** The type mapper *)

Lemma bsonToTs_lookup s t :
  bsonToTs !! s = Some t <-> In (s, t) bsonToTs_entries.
Proof.
  unfold bsonToTs. rewrite <- elem_of_list_to_map, list_elem_of_In; [reflexivity|].
  compute_done.
Qed.

(** Every target name of the table is truthy, so [|| null] only turns
    [undefined] into [null]. *)
Lemma buildTsType_of_string s : buildTsType_of (JStr s) = bsonToTs !! s.
Proof.
  simpl. destruct (bsonToTs !! s) as [t|] eqn:E; [|reflexivity].
  apply bsonToTs_lookup in E. simpl in E.
  repeat (destruct E as [E|E]; [inversion E; subst; reflexivity|]).
  contradiction.
Qed.

Lemma default_buildTsType l :
  List.map (default "") (List.map buildTsType_of l)
  = List.map (fun e => default "" (buildTsType (Some e))) l.
Proof. rewrite List.map_map. reflexivity. Qed.

Lemma omap_all_mapped (l : list JsonValue) :
  Forall (fun e => buildTsType (Some e) <> None) l ->
  omap buildTsType_of l = List.map (fun e => default "" (buildTsType (Some e))) l.
Proof.
  induction 1 as [|e l He _ IH]; simpl; [reflexivity|].
  simpl in He. destruct (buildTsType_of e) as [t|]; [|contradiction].
  simpl. f_equal. exact IH.
Qed.

(** C1 (the code at the failing input): the array path of [buildTsType]
    joins the mapping of every element, and an element without a mapping is
    not dropped: it stands as the empty string and keeps its separator.  So
    [["number","bogus"]] gives ["number|"], which is no union of type names,
    where the claim has ["number"] (and where the scalar path answers [null]
    for the same unknown name).  When every element has a mapping the result
    is the union the claim states, as for [["string","bool"]]. *)
Theorem buildTsType_array_join (l : list JsonValue) :
  buildTsType (Some (JArr l))
  = Some (String.concat "|"
            (List.map (fun e => default "" (buildTsType (Some e))) l))
  /\ (Forall (fun e => buildTsType (Some e) <> None) l ->
      buildTsType (Some (JArr l)) = Some (mapMany_dropping l))
  /\ buildTsType (Some (JArr [JStr "string"; JStr "bool"]))
     = Some "string|boolean"
  /\ buildTsType (Some (JArr [JStr "number"; JStr "bogus"])) = Some "number|".
Proof.
  assert (E : buildTsType (Some (JArr l))
              = Some (String.concat "|"
                        (List.map (fun e => default "" (buildTsType (Some e))) l))).
  { simpl. unfold join. now rewrite default_buildTsType. }
  split; [exact E|]. split; [|split; reflexivity].
  intros Hall. rewrite E. unfold mapMany_dropping.
  now rewrite omap_all_mapped.
Qed.

(** The union as the claim states it is ["number"] on [["number","bogus"]],
    and that is not what [buildTsType] returns there. *)
Lemma buildTsType_array_not_dropping :
  mapMany_dropping [JStr "number"; JStr "bogus"] = "number"
  /\ buildTsType (Some (JArr [JStr "number"; JStr "bogus"])) <> Some "number".
Proof. split; [reflexivity|]. vm_compute. discriminate. Qed.

(** ** Objects: keys, entries and the rebuilding fold *)

Arguments has_key : simpl never.

Lemma has_key_cons k k' v o :
  has_key k ((k', v) :: o) = String.eqb k' k || has_key k o.
Proof. reflexivity. Qed.

Lemma has_key_app k o1 o2 : has_key k (o1 ++ o2) = has_key k o1 || has_key k o2.
Proof. unfold has_key. apply existsb_app. Qed.

Lemma has_key_In k o : has_key k o = true <-> exists v, In (k, v) o.
Proof.
  unfold has_key. rewrite existsb_exists. split.
  - intros [[k' v] [Hin Heq]]. simpl in Heq. apply String.eqb_eq in Heq.
    subst. eauto.
  - intros [v Hin]. exists (k, v). split; [exact Hin|]. apply String.eqb_refl.
Qed.

Lemma has_key_obj_set k key v o :
  has_key k (obj_set key v o) = has_key k o || String.eqb key k.
Proof.
  induction o as [|[k' w] o IH]; simpl.
  - rewrite has_key_cons. apply orb_comm.
  - destruct (String.eqb k' key) eqn:E.
    + apply String.eqb_eq in E. subst k'. rewrite !has_key_cons.
      destruct (String.eqb key k); simpl; [reflexivity|].
      now rewrite orb_false_r.
    + rewrite !has_key_cons, IH. now rewrite orb_assoc.
Qed.

Lemma In_obj_set k x key v o :
  In (k, x) (obj_set key v o) -> (k = key /\ x = v) \/ In (k, x) o.
Proof.
  induction o as [|[k' w] o IH]; simpl.
  - intros [H|[]]. inversion H. auto.
  - destruct (String.eqb k' key); simpl; intros [H|H]; auto.
    + inversion H. auto.
    + destruct (IH H); auto.
Qed.

Lemma obj_set_absent key v o :
  has_key key o = false -> obj_set key v o = o ++ [(key, v)].
Proof.
  induction o as [|[k' w] o IH]; simpl; [reflexivity|].
  rewrite has_key_cons. intros H. apply orb_false_iff in H as [H1 H2].
  rewrite H1. f_equal. auto.
Qed.

Lemma unique_keys_obj_set key v o :
  unique_keys o = true -> unique_keys (obj_set key v o) = true.
Proof.
  induction o as [|[k' w] o IH]; simpl; [reflexivity|].
  intros H. apply andb_true_iff in H as [H1 H2].
  destruct (String.eqb k' key) eqn:E; simpl.
  - apply String.eqb_eq in E. subst k'. now rewrite H1, H2.
  - rewrite has_key_obj_set, (String.eqb_sym key k'), E, orb_false_r, H1.
    simpl. auto.
Qed.

Section Rebuild.

Variable f : JsonValue -> JsonValue.

(** The step of the [reduce]: [{ ...acc, [key]: f(value) }]. *)
Let step (acc : JsonObject) (kv : string * JsonValue) : JsonObject :=
  obj_set (fst kv) (f (snd kv)) acc.

Lemma has_key_rebuild k l acc :
  has_key k (fold_left step l acc) = has_key k acc || has_key k l.
Proof.
  revert acc. induction l as [|[k' v] l IH]; intros acc; simpl.
  - now rewrite orb_false_r.
  - rewrite IH. unfold step; simpl. rewrite has_key_obj_set, has_key_cons.
    now rewrite orb_assoc.
Qed.

Lemma In_rebuild k x l acc :
  In (k, x) (fold_left step l acc) ->
  In (k, x) acc \/ exists v, In (k, v) l /\ x = f v.
Proof.
  revert acc. induction l as [|[k' v] l IH]; intros acc; simpl; [auto|].
  intros H. destruct (IH _ H) as [H'|[w [Hw ->]]].
  - unfold step in H'; simpl in H'.
    destruct (In_obj_set _ _ _ _ _ H') as [[-> ->]|H'']; eauto.
  - eauto.
Qed.

Lemma rebuild_unique l acc :
  unique_keys l = true ->
  (forall k, has_key k l = true -> has_key k acc = false) ->
  fold_left step l acc = acc ++ map_values f l.
Proof.
  revert acc. induction l as [|[k v] l IH]; intros acc Hu Hd; simpl.
  - now rewrite app_nil_r.
  - simpl in Hu. apply andb_true_iff in Hu as [Hk Hu].
    apply negb_true_iff in Hk.
    unfold step at 2; simpl. rewrite obj_set_absent.
    + rewrite IH; [now rewrite <- app_assoc | exact Hu |].
      intros k' Hk'. rewrite has_key_app, has_key_cons. simpl.
      rewrite orb_false_r. apply orb_false_iff. split.
      * apply Hd. rewrite has_key_cons, Hk'. apply orb_true_r.
      * destruct (String.eqb k k') eqn:E; [|reflexivity].
        apply String.eqb_eq in E. subst. congruence.
    + apply Hd. rewrite has_key_cons, String.eqb_refl. reflexivity.
Qed.

End Rebuild.

(** The two outcomes of the conditional of [with_tsType]: the hint [t] is
    set, or the object is left as it is (the latter goals are closed by
    [tac]). *)
Ltac case_with_tsType tac :=
  unfold with_tsType;
  destruct (buildTsType _) as [?t|]; [|tac];
  destruct (negb _ && truthy _); [|tac].

(** On an object with distinct keys the fold rebuilds the traversed entries
    one for one. *)
Lemma addTsType_object_unique fs :
  unique_keys fs = true ->
  addTsType (JObj fs) = JObj (map_values addTsType (with_tsType fs)).
Proof.
  intros Hu. rewrite addTsType_object. f_equal.
  rewrite rebuild_unique; [reflexivity| |intros; reflexivity].
  case_with_tsType ltac:(exact Hu).
  now apply unique_keys_obj_set.
Qed.

(** When nothing is set on the object traversed, the result is [Unhinted]. *)
Lemma addTsType_unhinted fs :
  with_tsType fs = fs ->
  exists fs', addTsType (JObj fs) = JObj fs' /\ Unhinted fs fs'.
Proof.
  intros Hw. eexists. split; [apply addTsType_object|]. rewrite Hw.
  split; [|split].
  - intros k. now rewrite has_key_rebuild.
  - intros k v' H. apply In_rebuild in H as [[]|H]. exact H.
  - intros Hu. rewrite rebuild_unique; [reflexivity|exact Hu|intros; reflexivity].
Qed.

(** C5: an object node on which the key [enum] is present, whatever the
    value of [enum] and whatever its [bsonType] maps to, gets no [tsType]
    attached by [addTsType]: the result has the keys of the node and holds,
    under each, the annotated value of the node. *)
Theorem addTsType_enum_no_hint (fs : JsonObject) :
  has_key "enum" fs = true ->
  exists fs', addTsType (JObj fs) = JObj fs' /\ Unhinted fs fs'.
Proof.
  intros He. apply addTsType_unhinted. unfold with_tsType. rewrite He.
  destruct (buildTsType _); reflexivity.
Qed.

Lemma addTsType_enum_no_hint_witness :
  exists fs',
    addTsType (JObj [("bsonType", JStr "number");
                     ("enum", JArr [JNum 1; JNum 2; JNum 3])]) = JObj fs'
    /\ Unhinted [("bsonType", JStr "number");
                 ("enum", JArr [JNum 1; JNum 2; JNum 3])] fs'.
Proof.
  apply (addTsType_enum_no_hint
           [("bsonType", JStr "number"); ("enum", JArr [JNum 1; JNum 2; JNum 3])]).
  reflexivity.
Defined.

(** ** Markers that give no hint *)

Lemma obj_get_has_key key o v : obj_get key o = Some v -> has_key key o = true.
Proof.
  induction o as [|[k w] o IH]; simpl; [discriminate|].
  rewrite has_key_cons. destruct (String.eqb k key); simpl; auto.
Qed.

(** A hint that is [null] or empty leaves the object traversed as it is. *)
Lemma with_tsType_falsy fs marker :
  obj_get "bsonType" fs = Some marker ->
  buildTsType (Some marker) = None \/ buildTsType (Some marker) = Some "" ->
  with_tsType fs = fs.
Proof.
  intros Hget Hhint. unfold with_tsType.
  rewrite (obj_get_has_key _ _ _ Hget), Hget.
  destruct Hhint as [-> | ->]; [reflexivity|].
  now rewrite andb_false_r.
Qed.

(** The values of an object, annotated entry for entry. *)
Lemma Forall2_map_values (R : JsonValue -> JsonValue -> Prop)
      (f : JsonValue -> JsonValue) (o : JsonObject) :
  (forall k v, In (k, v) o -> R v (f v)) ->
  Forall2 (fun kv kv' => fst kv' = fst kv /\ R (snd kv) (snd kv'))
          o (map_values f o).
Proof.
  induction o as [|[k v] o IH]; intros H; simpl; constructor.
  - split; [reflexivity|]. apply (H k). now left.
  - apply IH. intros k' v' Hin. apply (H k'). now right.
Qed.

(** On a tree whose objects have distinct keys, [addTsType] computes the
    annotation that [Annotated] describes. *)
Lemma addTsType_Annotated (s : JsonValue) :
  wf_json s = true -> Annotated s (addTsType s).
Proof.
  induction s as [ | b | n | t | l IH | fs IH ] using JsonValue_tree_ind;
    intros Hwf; try (rewrite addTsType_scalar; [constructor|]; exact I).
  - rewrite addTsType_array. constructor. simpl in Hwf.
    induction IH as [|e l He _ IHl]; simpl in *; constructor;
      apply andb_true_iff in Hwf as [Hwe Hwl]; auto.
  - simpl in Hwf. apply andb_true_iff in Hwf as [Hu Hwf].
    rewrite List.forallb_forall in Hwf. rewrite List.Forall_forall in IH.
    rewrite (addTsType_object_unique _ Hu). constructor.
    apply Forall2_map_values. intros k v Hin.
    assert (Hfrom : In (k, v) fs \/ exists t, v = JStr t).
    { revert Hin. case_with_tsType ltac:(auto).
      intros Hin. apply In_obj_set in Hin as [[_ ->]|Hin]; eauto. }
    destruct Hfrom as [Hin'|[t ->]].
    + apply (IH _ Hin'), (Hwf _ Hin').
    + rewrite addTsType_scalar; [constructor|]; exact I.
Qed.

(** C10: when the [bsonType] of an object node is neither a string nor an
    array, [buildTsType] returns [null]; [addTsType] then attaches no hint to
    the node and still annotates every value of it: on a tree whose objects
    have distinct keys the result has, entry for entry and under the same
    keys, the annotation of each value, with the hints of the objects below
    set. *)
Theorem addTsType_ill_typed_marker (fs : JsonObject) (marker : JsonValue) :
  obj_get "bsonType" fs = Some marker ->
  typeof_string marker = false ->
  isArray marker = false ->
  buildTsType (Some marker) = None
  /\ (exists fs', addTsType (JObj fs) = JObj fs' /\ Unhinted fs fs')
  /\ (wf_json (JObj fs) = true ->
      exists fs',
        addTsType (JObj fs) = JObj fs'
        /\ Forall2 (fun kv kv' =>
                      fst kv' = fst kv /\ Annotated (snd kv) (snd kv'))
                   fs fs').
Proof.
  intros Hget Hstr Harr.
  assert (Hnone : buildTsType (Some marker) = None)
    by (destruct marker; simpl in *; congruence).
  assert (Hsame : with_tsType fs = fs)
    by (eapply with_tsType_falsy; eauto).
  split; [exact Hnone|]. split; [now apply addTsType_unhinted|].
  intros Hwf. simpl in Hwf. apply andb_true_iff in Hwf as [Hu Hwf].
  rewrite List.forallb_forall in Hwf.
  eexists. split; [now apply addTsType_object_unique|]. rewrite Hsame.
  apply Forall2_map_values. intros k v Hin.
  apply addTsType_Annotated, (Hwf _ Hin).
Qed.

Lemma addTsType_ill_typed_marker_witness :
  let fs := [("bsonType", JObj [("bsonType", JStr "decimal")]);
             ("items", JArr [JObj [("bsonType", JStr "date")]])] in
  (buildTsType (Some (JObj [("bsonType", JStr "decimal")])) = None
   /\ (exists fs', addTsType (JObj fs) = JObj fs' /\ Unhinted fs fs')
   /\ (wf_json (JObj fs) = true ->
       exists fs',
         addTsType (JObj fs) = JObj fs'
         /\ Forall2 (fun kv kv' =>
                       fst kv' = fst kv /\ Annotated (snd kv) (snd kv'))
                    fs fs'))
  /\ addTsType (JObj fs)
     = JObj [("bsonType",
              JObj [("bsonType", JStr "decimal"); ("tsType", JStr "Decimal128")]);
             ("items",
              JArr [JObj [("bsonType", JStr "date"); ("tsType", JStr "Date")]])].
Proof.
  intros fs. split; [|vm_compute; reflexivity].
  apply (addTsType_ill_typed_marker fs (JObj [("bsonType", JStr "decimal")]));
    reflexivity.
Defined.

(** Where the falsy check of [addTsType] does skip the hint: when the
    [bsonType] of an object node maps entirely to unknown names and is a
    scalar or an array of at most one element, the hint is [null] or empty
    and no [tsType] is attached. *)
Theorem addTsType_unknown_marker_no_hint (fs : JsonObject) (marker : JsonValue) :
  obj_get "bsonType" fs = Some marker ->
  all_unknown marker = true ->
  (forall l, marker = JArr l -> length l <= 1) ->
  exists fs', addTsType (JObj fs) = JObj fs' /\ Unhinted fs fs'.
Proof.
  intros Hget Hunk Hlen.
  apply addTsType_unhinted. eapply with_tsType_falsy; [exact Hget|].
  destruct marker as [ | b | n | s | l | o ]; simpl in Hunk;
    try (left; reflexivity).
  - left. now apply bool_decide_eq_true in Hunk.
  - right. specialize (Hlen l eq_refl).
    destruct l as [|e [|e' l]]; simpl in *; [reflexivity| |lia].
    rewrite andb_true_r in Hunk. apply bool_decide_eq_true in Hunk.
    unfold join. simpl. now rewrite Hunk.
Qed.

Lemma addTsType_unknown_marker_no_hint_witness :
  exists fs',
    addTsType (JObj [("bsonType", JStr "bogus")]) = JObj fs'
    /\ Unhinted [("bsonType", JStr "bogus")] fs'.
Proof.
  apply (addTsType_unknown_marker_no_hint
           [("bsonType", JStr "bogus")] (JStr "bogus")).
  - reflexivity.
  - vm_compute. reflexivity.
  - intros l H. discriminate H.
Defined.

(** C2 (the code at the failing input): an array of two unknown names maps
    entirely to unknown names, yet its hint is the separator ["|"] alone,
    which the falsy check of [addTsType] lets through: the node gets
    [tsType: "|"], where the claim has no key attached. *)
Lemma addTsType_unknown_union_hinted :
  all_unknown (JArr [JStr "bogus"; JStr "other"]) = true
  /\ addTsType (JObj [("bsonType", JArr [JStr "bogus"; JStr "other"])])
     = JObj [("bsonType", JArr [JStr "bogus"; JStr "other"]);
             ("tsType", JStr "|")]
  /\ ~ (exists fs',
         addTsType (JObj [("bsonType", JArr [JStr "bogus"; JStr "other"])])
         = JObj fs'
         /\ Unhinted [("bsonType", JArr [JStr "bogus"; JStr "other"])] fs').
Proof.
  assert (E : addTsType (JObj [("bsonType", JArr [JStr "bogus"; JStr "other"])])
              = JObj [("bsonType", JArr [JStr "bogus"; JStr "other"]);
                      ("tsType", JStr "|")]) by (vm_compute; reflexivity).
  split; [vm_compute; reflexivity|]. split; [exact E|].
  intros [fs' [Hfs' [Hkeys _]]]. rewrite E in Hfs'. inversion Hfs'. subst fs'.
  specialize (Hkeys "tsType"). vm_compute in Hkeys. discriminate.
Qed.

(** ** The detector, entry by entry *)

Lemma hasDecimal128_object fs : hasDecimal128 (JObj fs) = existsb scan_entry fs.
Proof. reflexivity. Qed.

Lemma hasDecimal128_typeof v :
  (if typeof_object v then hasDecimal128 v else false) = hasDecimal128 v.
Proof. destruct v; reflexivity. Qed.

(** ** Agreement of the mapper and the detector *)

Lemma occurs_in_part p :
  In p hint_parts -> occurs_in "Decimal128" p = String.eqb p "Decimal128".
Proof.
  simpl. intros H.
  repeat (destruct H as [<-|H]; [reflexivity|]). contradiction.
Qed.

Lemma occurs_in_part_sep p rest :
  In p hint_parts ->
  occurs_in "Decimal128" (String.append p (String.append "|" rest))
  = String.eqb p "Decimal128" || occurs_in "Decimal128" rest.
Proof.
  simpl. intros H.
  repeat (destruct H as [<-|H]; [reflexivity|]). contradiction.
Qed.

Lemma occurs_in_concat parts :
  Forall (fun p => In p hint_parts) parts ->
  occurs_in "Decimal128" (String.concat "|" parts)
  = existsb (fun p => String.eqb p "Decimal128") parts.
Proof.
  induction 1 as [|p parts Hp Hparts IH]; [reflexivity|].
  destruct parts as [|q parts].
  - simpl. rewrite orb_false_r. now apply occurs_in_part.
  - change (String.concat "|" (p :: q :: parts))
      with (String.append p (String.append "|" (String.concat "|" (q :: parts)))).
    rewrite occurs_in_part_sep by exact Hp. rewrite IH. reflexivity.
Qed.

Lemma hint_part_of_element e :
  isArray e = false ->
  In (default "" (buildTsType_of e)) hint_parts
  /\ String.eqb (default "" (buildTsType_of e)) "Decimal128"
     = strict_eq_string e "decimal".
Proof.
  destruct e as [ | b | n | s | l | o ]; intros Harr;
    try discriminate Harr; try (split; [left|]; reflexivity).
  rewrite buildTsType_of_string. simpl strict_eq_string.
  destruct (bsonToTs !! s) as [t|] eqn:E.
  - apply bsonToTs_lookup in E. simpl in E.
    repeat (destruct E as [E|E];
            [inversion E; subst; split; [simpl; tauto|reflexivity]|]).
    contradiction.
  - split; [left; reflexivity|]. simpl.
    destruct (String.eqb s "decimal") eqn:Es; [|reflexivity].
    apply String.eqb_eq in Es. subst s. vm_compute in E. discriminate.
Qed.

(** C3 (as the code has it): on a marker with no nesting (a scalar, or an
    array that holds no array: a type name or a list of type names), the
    hint of [buildTsType] mentions [Decimal128] exactly when [hasDecimal128]
    holds of the object carrying that marker. *)
Theorem buildTsType_agrees_hasDecimal128 (v : JsonValue) :
  flat_marker v = true ->
  mentions_Decimal128 (buildTsType (Some v))
  = hasDecimal128 (JObj [("bsonType", v)]).
Proof.
  intros Hflat. rewrite hasDecimal128_object. simpl existsb.
  rewrite orb_false_r. unfold scan_entry. simpl fst. simpl snd.
  rewrite String.eqb_refl.
  destruct v as [ | b | n | s | l | o ]; try reflexivity; try discriminate.
  - destruct (hint_part_of_element (JStr s) eq_refl) as [Hin Heq].
    simpl strict_eq_string in *. rewrite <- Heq.
    unfold buildTsType, mentions_Decimal128.
    destruct (buildTsType_of (JStr s)) as [t|] eqn:E; simpl in *.
    + rewrite (occurs_in_part t Hin). now destruct (String.eqb t "Decimal128").
    + reflexivity.
  - simpl strict_eq_string. cbv iota. simpl in Hflat.
    unfold buildTsType, mentions_Decimal128. simpl buildTsType_of. unfold join.
    rewrite occurs_in_concat.
    + unfold includes.
      induction l as [|e l IH]; [reflexivity|]. simpl in *.
      apply andb_true_iff in Hflat as [He Hl]. apply negb_true_iff in He.
      destruct (hint_part_of_element e He) as [_ ->]. now rewrite IH.
    + rewrite !Forall_map. induction l as [|e l IH]; constructor.
      * simpl in Hflat. apply andb_true_iff in Hflat as [He _].
        apply negb_true_iff in He. apply (hint_part_of_element e He).
      * apply IH. simpl in Hflat. now apply andb_true_iff in Hflat as [_ ?].
Qed.

Lemma buildTsType_agrees_hasDecimal128_witness :
  mentions_Decimal128 (buildTsType (Some (JArr [JStr "string"; JStr "decimal"])))
  = hasDecimal128 (JObj [("bsonType", JArr [JStr "string"; JStr "decimal"])]).
Proof.
  apply (buildTsType_agrees_hasDecimal128 (JArr [JStr "string"; JStr "decimal"])).
  reflexivity.
Defined.

(** C3 (as stated) fails on markers with nesting: a nested array is mapped
    by [buildTsType] and not searched by [hasDecimal128]; an object is
    searched by [hasDecimal128] and not mapped by [buildTsType]. *)
Lemma buildTsType_disagrees_hasDecimal128 :
  (mentions_Decimal128 (buildTsType (Some (JArr [JArr [JStr "decimal"]]))) = true
   /\ hasDecimal128 (JObj [("bsonType", JArr [JArr [JStr "decimal"]])]) = false)
  /\ (mentions_Decimal128
        (buildTsType (Some (JObj [("bsonType", JStr "decimal")]))) = false
      /\ hasDecimal128
           (JObj [("bsonType", JObj [("bsonType", JStr "decimal")])]) = true).
Proof. repeat split; vm_compute; reflexivity. Qed.

(** ** What the detector finds *)

Lemma strict_eq_string_true v s : strict_eq_string v s = true <-> v = JStr s.
Proof.
  destruct v; simpl; try (split; [discriminate|intros H; inversion H]).
  - rewrite String.eqb_eq. split; [congruence|now intros [= ->]].
Qed.

Lemma includes_In a s : includes a s = true <-> In (JStr s) a.
Proof.
  unfold includes. rewrite existsb_exists. split.
  - intros [e [Hin He]]. apply strict_eq_string_true in He. now subst.
  - intros Hin. exists (JStr s). split; [exact Hin|].
    now apply strict_eq_string_true.
Qed.

Lemma requests_hasDecimal128 n :
  requests_Decimal128 n -> hasDecimal128 n = true.
Proof.
  intros [fs [v [-> [Hin Hv]]]]. rewrite hasDecimal128_object.
  apply existsb_exists. exists ("bsonType", v). split; [exact Hin|].
  unfold scan_entry; simpl.
  destruct Hv as [->|[a [-> Ha]]]; [reflexivity|].
  simpl. now apply includes_In.
Qed.

Lemma scan_entry_value k v :
  ~ (k = "bsonType" /\ isArray v = true) ->
  hasDecimal128 v = true -> scan_entry (k, v) = true.
Proof.
  intros Hk Hv. unfold scan_entry; simpl. rewrite hasDecimal128_typeof.
  destruct (String.eqb k "bsonType") eqn:E; [|exact Hv].
  apply String.eqb_eq in E.
  destruct (strict_eq_string v "decimal"); [reflexivity|].
  destruct v; try exact Hv. exfalso. apply Hk. now split.
Qed.

Lemma scanned_hasDecimal128 s n :
  Scanned s n -> hasDecimal128 n = true -> hasDecimal128 s = true.
Proof.
  induction 1 as [s | l e n Hin _ IH | fs k v n Hin Hk _ IH]; intros Hn.
  - exact Hn.
  - simpl. apply existsb_exists. exists e. auto.
  - rewrite hasDecimal128_object. apply existsb_exists. exists (k, v).
    split; [exact Hin|]. apply scan_entry_value; auto.
Qed.

Lemma hasDecimal128_scanned s :
  hasDecimal128 s = true -> exists n, Scanned s n /\ requests_Decimal128 n.
Proof.
  induction s as [ | b | m | t | l IH | fs IH ] using JsonValue_tree_ind;
    try discriminate.
  - simpl. intros H. apply existsb_exists in H as [e [Hin He]].
    rewrite List.Forall_forall in IH. destruct (IH e Hin He) as [n [Hs Hr]].
    exists n. split; [|exact Hr]. eapply scan_element; eauto.
  - rewrite hasDecimal128_object. intros H.
    apply existsb_exists in H as [[k v] [Hin He]].
    rewrite List.Forall_forall in IH. specialize (IH (k, v) Hin). simpl in IH.
    unfold scan_entry in He; simpl in He.
    destruct (String.eqb k "bsonType") eqn:Ek.
    + apply String.eqb_eq in Ek. subst k.
      destruct (strict_eq_string v "decimal") eqn:Ev.
      * apply strict_eq_string_true in Ev. subst v.
        exists (JObj fs). split; [constructor|].
        exists fs, (JStr "decimal"). auto.
      * destruct (isArray v) eqn:Ea.
        -- destruct v; try discriminate Ea.
           exists (JObj fs). split; [constructor|].
           exists fs, (JArr l). split; [reflexivity|]. split; [exact Hin|].
           right. exists l. split; [reflexivity|]. now apply includes_In.
        -- assert (Hv : hasDecimal128 v = true)
             by (destruct v; try discriminate; exact He).
           destruct (IH Hv) as [n [Hs Hr]]. exists n. split; [|exact Hr].
           eapply scan_value; eauto. intros [_ Hc]. congruence.
    + rewrite hasDecimal128_typeof in He.
      destruct (IH He) as [n [Hs Hr]]. exists n. split; [|exact Hr].
      eapply scan_value; eauto. intros [Hc _]. subst k. discriminate Ek.
Qed.

(** C6 (as the code has it): [hasDecimal128] holds of a tree exactly when
    some object node, reached through array elements and through object
    values other than an array held under [bsonType], at any depth and
    whether or not [enum] is present, has a [bsonType] that is ["decimal"] or
    an array holding ["decimal"]; on a scalar and on [null] it is false. *)
Theorem hasDecimal128_iff_scanned (s : JsonValue) :
  (hasDecimal128 s = true <-> exists n, Scanned s n /\ requests_Decimal128 n)
  /\ match s with
     | JArr _ | JObj _ => True
     | _ => hasDecimal128 s = false
     end.
Proof.
  split; [split|].
  - apply hasDecimal128_scanned.
  - intros [n [Hs Hr]]. eapply scanned_hasDecimal128; eauto.
    now apply requests_hasDecimal128.
  - destruct s; auto.
Qed.

(** C6 (as stated) fails: an object inside an array held under [bsonType]
    is reached through an object value and an array element, and is not
    scanned. *)
Lemma hasDecimal128_not_iff_reachable :
  let s := JObj [("bsonType", JArr [JObj [("bsonType", JStr "decimal")]])] in
  ~ (hasDecimal128 s = true
     <-> exists n, Reachable s n /\ requests_Decimal128 n).
Proof.
  intros s [_ H]. enough (Hs : hasDecimal128 s = true) by discriminate Hs.
  apply H. exists (JObj [("bsonType", JStr "decimal")]). split.
  - eapply reach_value; [left; reflexivity|].
    eapply reach_element; [left; reflexivity|]. constructor.
  - exists [("bsonType", JStr "decimal")], (JStr "decimal").
    split; [reflexivity|]. split; [left; reflexivity|]. now left.
Qed.

(** ** Detection after annotation *)

Lemma strict_eq_string_addTsType v s :
  strict_eq_string (addTsType v) s = strict_eq_string v s.
Proof.
  destruct v; try (now rewrite addTsType_scalar).
  - now rewrite addTsType_array.
  - now rewrite addTsType_object.
Qed.

Lemma includes_addTsType a s :
  includes (List.map addTsType a) s = includes a s.
Proof.
  unfold includes. induction a as [|e a IH]; [reflexivity|]. simpl.
  now rewrite strict_eq_string_addTsType, IH.
Qed.

Lemma scan_entry_addTsType k v :
  hasDecimal128 (addTsType v) = hasDecimal128 v ->
  scan_entry (k, addTsType v) = scan_entry (k, v).
Proof.
  intros Hv. unfold scan_entry; simpl.
  rewrite strict_eq_string_addTsType, !hasDecimal128_typeof, Hv.
  destruct v; try (now rewrite addTsType_scalar).
  - rewrite addTsType_array. now rewrite includes_addTsType.
  - now rewrite addTsType_object.
Qed.

Lemma existsb_scan_map_values fs :
  (forall k v, In (k, v) fs -> hasDecimal128 (addTsType v) = hasDecimal128 v) ->
  existsb scan_entry (map_values addTsType fs) = existsb scan_entry fs.
Proof.
  induction fs as [|[k v] fs IH]; intros H; [reflexivity|]. simpl.
  rewrite scan_entry_addTsType by (apply (H k); now left).
  rewrite IH; [reflexivity|]. intros k' v' Hin. apply (H k'). now right.
Qed.

(** Setting a string under [tsType] changes the scan only through the value
    it replaces. *)
Lemma existsb_scan_obj_set t fs :
  (forall v, In ("tsType", v) fs -> hasDecimal128 v = false) ->
  existsb scan_entry (obj_set "tsType" (JStr t) fs) = existsb scan_entry fs.
Proof.
  induction fs as [|[k w] fs IH]; intros H; [reflexivity|]. simpl.
  destruct (String.eqb k "tsType") eqn:E; simpl.
  - apply String.eqb_eq in E. subst k.
    replace (scan_entry ("tsType", w)) with false; [reflexivity|].
    unfold scan_entry; simpl. rewrite hasDecimal128_typeof.
    symmetry. apply H. now left.
  - rewrite IH; [reflexivity|]. intros v Hin. apply H. now right.
Qed.

Lemma existsb_scan_with_tsType fs :
  (forall v, In ("tsType", v) fs -> hasDecimal128 v = false) ->
  existsb scan_entry (with_tsType fs) = existsb scan_entry fs.
Proof.
  intros H. case_with_tsType ltac:(reflexivity).
  now apply existsb_scan_obj_set.
Qed.

Lemma In_with_tsType k v fs :
  In (k, v) (with_tsType fs) ->
  In (k, v) fs \/ (k = "tsType" /\ exists t, v = JStr t).
Proof.
  case_with_tsType ltac:(auto).
  intros H. apply In_obj_set in H as [[-> ->]|H]; eauto.
Qed.

(** C7 (as the code has it): on a tree whose objects have distinct keys and
    in which no value held under a [tsType] key holds a decimal marker,
    [hasDecimal128 (addTsType s)] is [hasDecimal128 s]: scanning the schema
    before or after annotation gives the same answer. *)
Theorem hasDecimal128_addTsType (s : JsonValue) :
  wf_json s = true ->
  tsType_inert s = true ->
  hasDecimal128 (addTsType s) = hasDecimal128 s.
Proof.
  induction s as [ | b | m | t | l IH | fs IH ] using JsonValue_tree_ind;
    intros Hwf Hinert; try (now rewrite addTsType_scalar).
  - rewrite addTsType_array. simpl in *.
    induction IH as [|e l He _ IHl]; [reflexivity|]. simpl in *.
    apply andb_true_iff in Hwf as [Hwe Hwl].
    apply andb_true_iff in Hinert as [Hie Hil].
    now rewrite He, IHl.
  - simpl in Hwf. apply andb_true_iff in Hwf as [Hu Hwf].
    simpl in Hinert.
    rewrite List.forallb_forall in Hwf, Hinert. rewrite List.Forall_forall in IH.
    rewrite (addTsType_object_unique _ Hu), !hasDecimal128_object.
    rewrite existsb_scan_map_values.
    + apply existsb_scan_with_tsType. intros v Hin.
      specialize (Hinert _ Hin). simpl in Hinert.
      apply andb_true_iff in Hinert as [Hv _]. now apply negb_true_iff in Hv.
    + intros k v Hin. apply In_with_tsType in Hin as [Hin|[_ [t ->]]].
      * apply (IH _ Hin); [apply (Hwf _ Hin)|].
        specialize (Hinert _ Hin). now apply andb_true_iff in Hinert as [_ ?].
      * now rewrite addTsType_scalar.
Qed.

Lemma hasDecimal128_addTsType_witness :
  hasDecimal128
    (addTsType
       (JObj [("type", JStr "object");
              ("properties",
               JObj [("amt", JObj [("bsonType", JStr "decimal")]);
                     ("title", JStr "X")])]))
  = hasDecimal128
      (JObj [("type", JStr "object");
             ("properties",
              JObj [("amt", JObj [("bsonType", JStr "decimal")]);
                    ("title", JStr "X")])]).
Proof.
  apply (hasDecimal128_addTsType
           (JObj [("type", JStr "object");
                  ("properties",
                   JObj [("amt", JObj [("bsonType", JStr "decimal")]);
                         ("title", JStr "X")])])); reflexivity.
Defined.

(** C7 (as stated) fails: a hint that replaces a subtree held under [tsType]
    removes the decimal marker that subtree held. *)
Lemma hasDecimal128_addTsType_overwritten :
  let s := JObj [("bsonType", JStr "number");
                 ("tsType", JObj [("bsonType", JStr "decimal")])] in
  wf_json s = true
  /\ addTsType s = JObj [("bsonType", JStr "number"); ("tsType", JStr "number")]
  /\ hasDecimal128 s = true
  /\ hasDecimal128 (addTsType s) = false
  /\ hasDecimal128 (addTsType s) <> hasDecimal128 s.
Proof. repeat split; try (vm_compute; reflexivity). vm_compute. discriminate. Qed.

(** ** Annotation only adds hints *)

Lemma has_key_map_values f k o : has_key k (map_values f o) = has_key k o.
Proof.
  unfold has_key, map_values. induction o as [|[k' v] o IH]; [reflexivity|].
  simpl. now rewrite IH.
Qed.

Lemma In_map_values f k v o : In (k, v) o -> In (k, f v) (map_values f o).
Proof.
  intros H. unfold map_values.
  apply (in_map (fun kv => (fst kv, f (snd kv))) _ _ H).
Qed.

Lemma In_obj_set_other k v key x o :
  k <> key -> In (k, v) o -> In (k, v) (obj_set key x o).
Proof.
  intros Hk. induction o as [|[k' w] o IH]; simpl; [contradiction|].
  destruct (String.eqb k' key) eqn:E; simpl.
  - apply String.eqb_eq in E. subst k'. intros [H|H]; [|now right].
    inversion H. congruence.
  - intros [H|H]; auto.
Qed.

Lemma In_with_tsType_other k v fs :
  k <> "tsType" -> In (k, v) fs -> In (k, v) (with_tsType fs).
Proof.
  intros Hk Hin. case_with_tsType ltac:(exact Hin).
  now apply In_obj_set_other.
Qed.

Lemma has_key_with_tsType k fs :
  (has_key k fs = true -> has_key k (with_tsType fs) = true)
  /\ (has_key k (with_tsType fs) = true -> has_key k fs = true \/ k = "tsType").
Proof.
  case_with_tsType ltac:(auto).
  rewrite has_key_obj_set. split.
  - intros ->. reflexivity.
  - intros H. apply orb_true_iff in H as [H|H]; [now left|right].
    apply String.eqb_eq in H. now subst.
Qed.

Lemma with_tsType_enum fs : has_key "enum" fs = true -> with_tsType fs = fs.
Proof.
  intros He. unfold with_tsType. rewrite He.
  destruct (buildTsType _); reflexivity.
Qed.

(** C4: annotation is purely additive.  On a tree whose objects have
    distinct keys, every key of every object node is present in the output of
    [addTsType], with its value kept up to the annotation of the subtree;
    the only key that may be new, or take a new value, on an object node is
    [tsType], and on a node with an [enum] key it is neither. *)
Theorem addTsType_additive (s : JsonValue) :
  wf_json s = true -> Additive s (addTsType s).
Proof.
  induction s as [ | b | m | t | l IH | fs IH ] using JsonValue_tree_ind;
    intros Hwf; try (rewrite addTsType_scalar; [constructor|]; exact I).
  - rewrite addTsType_array. constructor. simpl in Hwf.
    induction IH as [|e l He _ IHl]; simpl in *; constructor;
      apply andb_true_iff in Hwf as [Hwe Hwl]; auto.
  - simpl in Hwf. apply andb_true_iff in Hwf as [Hu Hwf].
    rewrite List.forallb_forall in Hwf. rewrite List.Forall_forall in IH.
    rewrite (addTsType_object_unique _ Hu).
    assert (Hval : forall k v, In (k, v) fs -> Additive v (addTsType v)).
    { intros k v Hin. apply (IH _ Hin), (Hwf _ Hin). }
    constructor.
    + intros k Hk. rewrite has_key_map_values.
      now apply has_key_with_tsType.
    + intros k Hk. rewrite has_key_map_values in Hk.
      now apply has_key_with_tsType.
    + intros k v Hin Hk. exists (addTsType v). split; [|eauto].
      apply In_map_values. now apply In_with_tsType_other.
    + intros He. rewrite (with_tsType_enum _ He). split.
      * apply has_key_map_values.
      * intros v Hin. exists (addTsType v). split; [|eauto].
        now apply In_map_values.
Qed.

Lemma addTsType_additive_witness :
  Additive
    (JObj [("bsonType", JStr "date"); ("tsType", JNull);
           ("items", JArr [JObj [("enum", JArr [JNum 1]);
                                 ("bsonType", JStr "number")]])])
    (addTsType
       (JObj [("bsonType", JStr "date"); ("tsType", JNull);
              ("items", JArr [JObj [("enum", JArr [JNum 1]);
                                    ("bsonType", JStr "number")]])])).
Proof.
  apply (addTsType_additive
           (JObj [("bsonType", JStr "date"); ("tsType", JNull);
                  ("items", JArr [JObj [("enum", JArr [JNum 1]);
                                        ("bsonType", JStr "number")]])])).
  reflexivity.
Defined.

(** ** The orchestrator *)

(** Shallow merge: a key of [options] overrides the default; an absent key
    keeps it. *)
Lemma mergedOptions_lookup cwd (options : option CompileOptions) (k : string) :
  mergedOptions cwd options !! k
  = match default ∅ options !! k with
    | Some v => Some v
    | None => DEFAULT_OPTIONS cwd !! k
    end.
Proof.
  unfold mergedOptions. rewrite lookup_union.
  destruct (default ∅ options !! k), (DEFAULT_OPTIONS cwd !! k); reflexivity.
Qed.

(** C8: [compileBSON] merges the options of the caller over the defaults key
    by key, and hands to the external compiler the annotated schema, an empty
    root name and the merged options in which [bannerComment] is one string:
    the merged banner lines, followed by the [Decimal128] import line exactly
    when [hasDecimal128 schema] holds, joined with line feeds. *)
Theorem compileBSON_banner (cwd : string) (Output : Type)
        (compileJSON : JsonValue -> string -> CompileOptions -> Output)
        (schema : JsonValue) (options : option CompileOptions)
        (lines : list string) :
  mergedOptions cwd options !! "bannerComment" = Some (OLines lines) ->
  (forall k,
      mergedOptions cwd options !! k
      = match default ∅ options !! k with
        | Some v => Some v
        | None => DEFAULT_OPTIONS cwd !! k
        end)
  /\ exists opts,
      compileBSON cwd Output compileJSON schema options
      = Some (compileJSON (addTsType schema) "" opts)
      /\ opts !! "bannerComment"
         = Some (OString
                   (String.concat newline
                      (lines ++ (if hasDecimal128 schema
                                 then [import_Decimal128] else []))))
      /\ forall k, k <> "bannerComment" ->
                   opts !! k = mergedOptions cwd options !! k.
Proof.
  intros Hbanner. split; [apply mergedOptions_lookup|].
  unfold compileBSON. rewrite Hbanner. eexists. split; [reflexivity|]. split.
  - rewrite lookup_insert_eq. reflexivity.
  - intros k Hk. now rewrite lookup_insert_ne.
Qed.

Lemma compileBSON_banner_witness :
  let schema :=
    JObj [("type", JStr "object");
          ("properties", JObj [("amt", JObj [("bsonType", JStr "decimal")])])] in
  let compileJSON := fun (s : JsonValue) (name : string) (o : CompileOptions) =>
                       (s, name, o) in
  let options : option CompileOptions := Some {[ "unknownAny" := OBool false ]} in
  (forall k,
      mergedOptions "/" options !! k
      = match default ∅ options !! k with
        | Some v => Some v
        | None => DEFAULT_OPTIONS "/" !! k
        end)
  /\ exists opts,
      compileBSON "/" _ compileJSON schema options
      = Some (compileJSON (addTsType schema) "" opts)
      /\ opts !! "bannerComment"
         = Some (OString
                   (String.concat newline
                      (banner_lines ++ (if hasDecimal128 schema
                                        then [import_Decimal128] else []))))
      /\ forall k, k <> "bannerComment" ->
                   opts !! k = mergedOptions "/" options !! k.
Proof.
  intros schema compileJSON options.
  apply (compileBSON_banner "/" _ compileJSON schema options banner_lines).
  vm_compute. reflexivity.
Defined.

(** ** The configuration file *)

Lemma boolean_or_read d key o :
  boolean_or d (obj_get key o) = default d (read_boolean key o).
Proof.
  unfold read_boolean. destruct (obj_get key o) as [[]|]; reflexivity.
Qed.

Lemma string_or_read d key o :
  string_or d (obj_get key o) = default d (read_string key o).
Proof.
  unfold read_string. destruct (obj_get key o) as [[]|]; reflexivity.
Qed.

(** [every] accepts the array exactly when all its elements can be read as
    strings, and [as_strings] is then that reading. *)
Lemma mapM_strings (l : list JsonValue) :
  mapM (fun e => match e with JStr s => Some s | _ => None end) l
  = if forallb typeof_string l then Some (as_strings l) else None.
Proof.
  induction l as [|e l IH]; [reflexivity|].
  unfold as_strings in *. cbn [forallb omap mapM]. rewrite IH.
  destruct e; try reflexivity. simpl typeof_string. cbn [andb].
  destruct (forallb typeof_string l); reflexivity.
Qed.

Lemma strings_read d (l : list JsonValue) :
  (if forallb typeof_string l then as_strings l else d)
  = default d (mapM (fun e => match e with JStr s => Some s | _ => None end) l).
Proof.
  rewrite mapM_strings. destruct (forallb typeof_string l); reflexivity.
Qed.

(** C9: [parseConfig] returns an [Options] value on every input string.
    When the string parses to a plain object, each recognised field is the
    value of the file when that has the right type and the default of the
    field otherwise, one field at a time; when the string is no JSON or no
    plain object, the result is [defaultOptions].  A file [{"path": 123}]
    gives the default [path] (and, no other field being given, all the
    defaults). *)
Theorem parseConfig_recovers (JSON_parse : string -> option JsonValue)
        (config : string) :
  match JSON_parse config with
  | Some (JObj file) => Recovered file (parseConfig JSON_parse config)
  | _ => parseConfig JSON_parse config = defaultOptions
  end
  /\ (JSON_parse config = Some (JObj [("path", JNum 123)]) ->
      parseConfig JSON_parse config = defaultOptions).
Proof.
  unfold parseConfig, parseConfig_try. split.
  - destruct (JSON_parse config) as [[ | b | n | s | l | file ]|];
      try reflexivity.
    cbn [mbind option_bind]. unfold Recovered. cbn [bannerComment
      enableConstEnums ignoreMinAndMaxItems strictIndexSignatures unknownAny
      path env].
    rewrite !boolean_or_read, !string_or_read.
    repeat (split; [try reflexivity|]).
    + unfold read_strings.
      destruct (obj_get "bannerComment" file) as [[ | | | | l | ]|];
        try reflexivity.
      apply strings_read.
    + unfold read_object.
      destruct (obj_get "env" file) as [[ | | | | | e ]|]; try reflexivity.
      cbn [MONGODB_URI MONGODB_DATABASE].
      now rewrite !string_or_read.
  - intros ->. reflexivity.
Qed.

Lemma parseConfig_recovers_witness :
  let JSON_parse := fun s : string =>
                      if String.eqb s "path-is-a-number"
                      then Some (JObj [("path", JNum 123)]) else None in
  match JSON_parse "path-is-a-number" with
  | Some (JObj file) =>
      Recovered file (parseConfig JSON_parse "path-is-a-number")
  | _ => parseConfig JSON_parse "path-is-a-number" = defaultOptions
  end
  /\ (JSON_parse "path-is-a-number" = Some (JObj [("path", JNum 123)]) ->
      parseConfig JSON_parse "path-is-a-number" = defaultOptions).
Proof.
  intros JSON_parse.
  exact (parseConfig_recovers JSON_parse "path-is-a-number").
Defined.

(** * Further properties *)

(** ** Reading and setting properties *)

Lemma obj_get_absent key o : has_key key o = false -> obj_get key o = None.
Proof.
  induction o as [|[k w] o IH]; simpl; [reflexivity|].
  rewrite has_key_cons. intros H. apply orb_false_iff in H as [H1 H2].
  rewrite H1. auto.
Qed.

Lemma obj_get_guarded key o :
  (if has_key key o then obj_get key o else None) = obj_get key o.
Proof.
  destruct (has_key key o) eqn:E; [reflexivity|].
  symmetry. now apply obj_get_absent.
Qed.

Lemma obj_get_In key o v : obj_get key o = Some v -> In (key, v) o.
Proof.
  induction o as [|[k w] o IH]; simpl; [discriminate|].
  destruct (String.eqb k key) eqn:E.
  - apply String.eqb_eq in E. subst k. intros [= ->]. now left.
  - intros H. right. auto.
Qed.

Lemma obj_get_obj_set_eq key v o : obj_get key (obj_set key v o) = Some v.
Proof.
  induction o as [|[k w] o IH]; simpl.
  - now rewrite String.eqb_refl.
  - destruct (String.eqb k key) eqn:E; simpl.
    + now rewrite String.eqb_refl.
    + now rewrite E.
Qed.

Lemma obj_get_obj_set_ne k key v o :
  k <> key -> obj_get k (obj_set key v o) = obj_get k o.
Proof.
  intros Hk. induction o as [|[k' w] o IH]; simpl.
  - apply String.eqb_neq in Hk. now rewrite String.eqb_sym, Hk.
  - destruct (String.eqb k' key) eqn:E; simpl.
    + apply String.eqb_eq in E. subst k'.
      apply String.eqb_neq in Hk. now rewrite String.eqb_sym, Hk.
    + now rewrite IH.
Qed.

Lemma obj_get_map_values f k o :
  obj_get k (map_values f o) = option_map f (obj_get k o).
Proof.
  induction o as [|[k' w] o IH]; simpl; [reflexivity|].
  destruct (String.eqb k' k); [reflexivity|exact IH].
Qed.

Lemma unique_keys_map_values f o :
  unique_keys (map_values f o) = unique_keys o.
Proof.
  induction o as [|[k w] o IH]; simpl; [reflexivity|].
  now rewrite IH, (has_key_map_values f k o).
Qed.

Lemma map_values_obj_set f key v o :
  map_values f (obj_set key v o) = obj_set key (f v) (map_values f o).
Proof.
  induction o as [|[k w] o IH]; simpl; [reflexivity|].
  destruct (String.eqb k key); simpl; [reflexivity|]. now rewrite IH.
Qed.

Lemma obj_set_twice key v o :
  obj_set key v (obj_set key v o) = obj_set key v o.
Proof.
  induction o as [|[k w] o IH]; simpl.
  - now rewrite String.eqb_refl.
  - destruct (String.eqb k key) eqn:E; simpl.
    + now rewrite String.eqb_refl.
    + now rewrite E, IH.
Qed.

Lemma map_values_ext f g o :
  (forall k v, In (k, v) o -> f v = g v) -> map_values f o = map_values g o.
Proof.
  induction o as [|[k w] o IH]; intros H; simpl; [reflexivity|].
  rewrite (H k w) by now left. f_equal. apply IH.
  intros k' v' Hin. apply (H k'). now right.
Qed.

Lemma map_values_id o : map_values (fun v => v) o = o.
Proof.
  induction o as [|[k w] o IH]; simpl; [reflexivity|]. now rewrite IH.
Qed.

Lemma map_values_compose f g o :
  map_values f (map_values g o) = map_values (fun v => f (g v)) o.
Proof. unfold map_values. rewrite List.map_map. reflexivity. Qed.

(** ** The hint of a node *)

Lemma with_tsType_hint fs :
  with_tsType fs
  = match hint_of fs with
    | Some t => obj_set "tsType" (JStr t) fs
    | None => fs
    end.
Proof.
  unfold with_tsType, hint_of. rewrite obj_get_guarded.
  destruct (buildTsType _) as [t|]; [|reflexivity].
  destruct (negb _ && truthy t); reflexivity.
Qed.

(** The mapping of a marker is the same before and after annotation. *)
Lemma buildTsType_of_annotated marker :
  buildTsType_of (addTsType marker) = buildTsType_of marker.
Proof.
  induction marker as [ | b | n | s | l IH | fs IH ] using JsonValue_tree_ind;
    try (now rewrite addTsType_scalar).
  - rewrite addTsType_array. simpl. do 2 f_equal.
    induction IH as [|e l He _ IHl]; simpl; [reflexivity|].
    now rewrite He, IHl.
  - now rewrite addTsType_object.
Qed.

Lemma hint_of_map_values fs : hint_of (map_values addTsType fs) = hint_of fs.
Proof.
  unfold hint_of. rewrite has_key_map_values, obj_get_map_values.
  destruct (obj_get "bsonType" fs) as [m|]; simpl; [|reflexivity].
  now rewrite buildTsType_of_annotated.
Qed.

Lemma hint_of_obj_set t fs :
  hint_of (obj_set "tsType" (JStr t) fs) = hint_of fs.
Proof.
  unfold hint_of.
  rewrite has_key_obj_set, obj_get_obj_set_ne by discriminate.
  now rewrite orb_false_r.
Qed.

Lemma with_tsType_twice fs : with_tsType (with_tsType fs) = with_tsType fs.
Proof.
  rewrite (with_tsType_hint fs). destruct (hint_of fs) as [t|] eqn:E.
  - rewrite with_tsType_hint, hint_of_obj_set, E. apply obj_set_twice.
  - now rewrite with_tsType_hint, E.
Qed.

Lemma with_tsType_map_values fs :
  with_tsType (map_values addTsType fs) = map_values addTsType (with_tsType fs).
Proof.
  rewrite !with_tsType_hint, hint_of_map_values.
  destruct (hint_of fs) as [t|]; [|reflexivity].
  rewrite map_values_obj_set. now rewrite addTsType_scalar.
Qed.

Lemma unique_keys_with_tsType fs :
  unique_keys fs = true -> unique_keys (with_tsType fs) = true.
Proof.
  intros Hu. rewrite with_tsType_hint. destruct (hint_of fs); [|exact Hu].
  now apply unique_keys_obj_set.
Qed.

(** ** Annotating twice, and annotating a plain schema *)

(** X1: on a tree whose objects have distinct keys, annotating an annotated
    schema changes nothing: every hint is computed again from the same
    marker and set where it already is. *)
Theorem addTsType_idempotent (s : JsonValue) :
  wf_json s = true -> addTsType (addTsType s) = addTsType s.
Proof.
  induction s as [ | b | n | t | l IH | fs IH ] using JsonValue_tree_ind;
    intros Hwf; try (now rewrite !addTsType_scalar).
  - rewrite !addTsType_array. f_equal. rewrite List.map_map. simpl in Hwf.
    induction IH as [|e l He _ IHl]; simpl in *; [reflexivity|].
    apply andb_true_iff in Hwf as [Hwe Hwl]. now rewrite He, IHl.
  - simpl in Hwf. apply andb_true_iff in Hwf as [Hu Hwf].
    rewrite List.forallb_forall in Hwf. rewrite List.Forall_forall in IH.
    rewrite (addTsType_object_unique fs Hu).
    rewrite addTsType_object_unique
      by (rewrite unique_keys_map_values; now apply unique_keys_with_tsType).
    f_equal.
    rewrite with_tsType_map_values, with_tsType_twice, map_values_compose.
    apply map_values_ext. intros k v Hin.
    apply In_with_tsType in Hin as [Hin|[_ [t ->]]].
    + apply (IH _ Hin), (Hwf _ Hin).
    + now rewrite !addTsType_scalar.
Qed.

Lemma addTsType_idempotent_witness :
  addTsType
    (addTsType
       (JObj [("bsonType", JArr [JStr "date"; JStr "null"]);
              ("items", JArr [JObj [("bsonType", JStr "decimal")]])]))
  = addTsType
      (JObj [("bsonType", JArr [JStr "date"; JStr "null"]);
             ("items", JArr [JObj [("bsonType", JStr "decimal")]])]).
Proof.
  apply (addTsType_idempotent
           (JObj [("bsonType", JArr [JStr "date"; JStr "null"]);
                  ("items", JArr [JObj [("bsonType", JStr "decimal")]])])).
  reflexivity.
Defined.

(** X2: what a property read finds on an annotated object with distinct
    keys.  Under [tsType] it finds the hint when there is one (the mapping of
    the marker, truthy, on an object without [enum]) and the annotated former
    value otherwise; under every other key it finds the annotated value of
    the input, or nothing when the input has no such key. *)
Theorem addTsType_node_lookup (fs : JsonObject) :
  unique_keys fs = true ->
  exists fs',
    addTsType (JObj fs) = JObj fs'
    /\ unique_keys fs' = true
    /\ (forall k, k <> "tsType" ->
                  obj_get k fs' = option_map addTsType (obj_get k fs))
    /\ obj_get "tsType" fs'
       = match hint_of fs with
         | Some t => Some (JStr t)
         | None => option_map addTsType (obj_get "tsType" fs)
         end.
Proof.
  intros Hu. eexists. split; [now apply addTsType_object_unique|].
  split; [|split].
  - rewrite unique_keys_map_values. now apply unique_keys_with_tsType.
  - intros k Hk. rewrite obj_get_map_values, with_tsType_hint.
    destruct (hint_of fs); [|reflexivity].
    now rewrite obj_get_obj_set_ne.
  - rewrite obj_get_map_values, with_tsType_hint.
    destruct (hint_of fs) as [t|]; [|reflexivity].
    rewrite obj_get_obj_set_eq. simpl. now rewrite addTsType_scalar.
Qed.

Lemma addTsType_node_lookup_witness :
  exists fs',
    addTsType (JObj [("tsType", JStr "any"); ("bsonType", JStr "date");
                     ("items", JObj [("bsonType", JStr "bool")])])
    = JObj fs'
    /\ unique_keys fs' = true
    /\ (forall k, k <> "tsType" ->
                  obj_get k fs'
                  = option_map addTsType
                      (obj_get k [("tsType", JStr "any");
                                  ("bsonType", JStr "date");
                                  ("items", JObj [("bsonType", JStr "bool")])]))
    /\ obj_get "tsType" fs'
       = match hint_of [("tsType", JStr "any"); ("bsonType", JStr "date");
                        ("items", JObj [("bsonType", JStr "bool")])] with
         | Some t => Some (JStr t)
         | None =>
             option_map addTsType
               (obj_get "tsType"
                  [("tsType", JStr "any"); ("bsonType", JStr "date");
                   ("items", JObj [("bsonType", JStr "bool")])])
         end.
Proof.
  apply (addTsType_node_lookup
           [("tsType", JStr "any"); ("bsonType", JStr "date");
            ("items", JObj [("bsonType", JStr "bool")])]).
  reflexivity.
Defined.

(** X3: a schema in which no object has a [bsonType] key (and objects have
    distinct keys) is returned as it is. *)
Theorem addTsType_without_bsonType (s : JsonValue) :
  wf_json s = true -> no_bsonType s = true -> addTsType s = s.
Proof.
  induction s as [ | b | n | t | l IH | fs IH ] using JsonValue_tree_ind;
    intros Hwf Hno; try (now rewrite addTsType_scalar).
  - rewrite addTsType_array. f_equal. simpl in Hwf, Hno.
    induction IH as [|e l He _ IHl]; simpl in *; [reflexivity|].
    apply andb_true_iff in Hwf as [Hwe Hwl].
    apply andb_true_iff in Hno as [Hne Hnl]. now rewrite He, IHl.
  - simpl in Hwf, Hno. apply andb_true_iff in Hwf as [Hu Hwf].
    apply andb_true_iff in Hno as [Hk Hno]. apply negb_true_iff in Hk.
    rewrite List.forallb_forall in Hwf, Hno. rewrite List.Forall_forall in IH.
    rewrite (addTsType_object_unique fs Hu), with_tsType_hint.
    unfold hint_of. rewrite (obj_get_absent _ _ Hk). simpl. f_equal.
    rewrite <- (map_values_id fs) at 2. apply map_values_ext.
    intros k v Hin. apply (IH _ Hin); [apply (Hwf _ Hin)|apply (Hno _ Hin)].
Qed.

Lemma addTsType_without_bsonType_witness :
  addTsType
    (JObj [("type", JStr "object");
           ("properties", JObj [("name", JObj [("type", JStr "string")])]);
           ("required", JArr [JStr "name"])])
  = JObj [("type", JStr "object");
          ("properties", JObj [("name", JObj [("type", JStr "string")])]);
          ("required", JArr [JStr "name"])].
Proof.
  apply (addTsType_without_bsonType
           (JObj [("type", JStr "object");
                  ("properties", JObj [("name", JObj [("type", JStr "string")])]);
                  ("required", JArr [JStr "name"])])); reflexivity.
Defined.

(** ** Hints and the import *)

Lemma flat_parts l :
  forallb (fun e => negb (isArray e)) l = true ->
  Forall (fun p => In p hint_parts)
         (List.map (default "") (List.map buildTsType_of l))
  /\ existsb (fun p => String.eqb p "Decimal128")
             (List.map (default "") (List.map buildTsType_of l))
     = includes l "decimal".
Proof.
  unfold includes. induction l as [|e l IH]; simpl; intros H.
  - split; [constructor|reflexivity].
  - apply andb_true_iff in H as [He Hl]. apply negb_true_iff in He.
    destruct (hint_part_of_element e He) as [Hin Heq].
    destruct (IH Hl) as [IH1 IH2]. split; [now constructor|].
    now rewrite Heq, IH2.
Qed.

(** A flat marker whose hint mentions [Decimal128] is ["decimal"] or holds
    it. *)
Lemma flat_marker_requests m :
  flat_marker m = true ->
  mentions_Decimal128 (buildTsType (Some m)) = true ->
  m = JStr "decimal" \/ exists a, m = JArr a /\ In (JStr "decimal") a.
Proof.
  intros Hflat Hm. destruct m as [ | b | n | s | l | o ]; try discriminate.
  - left. destruct (hint_part_of_element (JStr s) eq_refl) as [Hin Heq].
    unfold buildTsType, mentions_Decimal128 in Hm.
    destruct (buildTsType_of (JStr s)) as [t|]; [|discriminate].
    simpl default in *. rewrite (occurs_in_part t Hin), Heq in Hm.
    now apply strict_eq_string_true in Hm.
  - right. exists l. split; [reflexivity|]. simpl in Hflat.
    destruct (flat_parts l Hflat) as [Hparts Hex].
    unfold buildTsType, mentions_Decimal128 in Hm. simpl in Hm. unfold join in Hm.
    rewrite (occurs_in_concat _ Hparts), Hex in Hm. now apply includes_In.
Qed.

Lemma name_or_names_flat m : name_or_names m = true -> flat_marker m = true.
Proof.
  destruct m as [ | | | | l | ]; try discriminate; try reflexivity.
  simpl. induction l as [|e l IH]; simpl; [reflexivity|].
  intros H. apply andb_true_iff in H as [He Hl].
  rewrite (IH Hl), andb_true_r. now destruct e.
Qed.

Lemma hint_of_Some fs t :
  hint_of fs = Some t ->
  exists m, obj_get "bsonType" fs = Some m
            /\ buildTsType (Some m) = Some t
            /\ has_key "enum" fs = false /\ t <> "".
Proof.
  unfold hint_of. destruct (obj_get "bsonType" fs) as [m|]; [|discriminate].
  destruct (buildTsType (Some m)) as [t'|] eqn:E; [|discriminate].
  destruct (has_key "enum" fs); [discriminate|]. simpl.
  destruct (truthy t') eqn:Et; [|discriminate]. intros [= ->].
  exists m. repeat split; auto.
  intros ->. discriminate Et.
Qed.

(** The hint of an object with a well-formed marker mentions [Decimal128]
    only if the detector holds of that object. *)
Lemma hint_Decimal128_node (fs : JsonObject) (t : string) :
  markers_wf (JObj fs) = true ->
  hint_of fs = Some t ->
  occurs_in "Decimal128" t = true ->
  hasDecimal128 (JObj fs) = true.
Proof.
  intros Hnode Hhint Ht.
  apply hint_of_Some in Hhint as [m [Hget [Hbuild _]]].
  apply obj_get_In in Hget. apply requests_hasDecimal128.
  exists fs, m. split; [reflexivity|]. split; [exact Hget|].
  apply flat_marker_requests; [|rewrite Hbuild; exact Ht].
  apply name_or_names_flat. simpl in Hnode.
  rewrite List.forallb_forall in Hnode. specialize (Hnode _ Hget).
  simpl in Hnode. now apply andb_true_iff in Hnode as [? _].
Qed.

Lemma name_or_names_inert m : name_or_names m = true -> hasDecimal128 m = false.
Proof.
  destruct m as [ | | | | l | ]; try discriminate; try reflexivity.
  simpl. induction l as [|e l IH]; simpl; [reflexivity|].
  intros H. apply andb_true_iff in H as [He Hl].
  rewrite (IH Hl), orb_false_r. now destruct e.
Qed.

Lemma addTsType_string v t : addTsType v = JStr t -> v = JStr t.
Proof.
  destruct v; try (now rewrite addTsType_scalar).
  - rewrite addTsType_array. discriminate.
  - rewrite addTsType_object. discriminate.
Qed.

Lemma In_with_tsType_hint k v fs :
  In (k, v) (with_tsType fs) ->
  In (k, v) fs \/ (k = "tsType" /\ exists t, v = JStr t /\ hint_of fs = Some t).
Proof.
  rewrite with_tsType_hint. destruct (hint_of fs) as [t|]; [|auto].
  intros H. apply In_obj_set in H as [[-> ->]|H]; eauto.
Qed.

(** The test of [uses_Decimal128] on one entry. *)
Lemma uses_Decimal128_entry fs :
  uses_Decimal128 (JObj fs) = false ->
  forall k v, In (k, v) fs ->
    uses_Decimal128 v = false
    /\ forall t, k = "tsType" -> v = JStr t -> occurs_in "Decimal128" t = false.
Proof.
  simpl. intros H k v Hin.
  assert (He : (String.eqb k "tsType"
                && match v with
                   | JStr t => occurs_in "Decimal128" t
                   | _ => false
                   end)
               || uses_Decimal128 v = false).
  { destruct (_ || _) eqn:E; [|reflexivity].
    rewrite <- H. symmetry. apply existsb_exists. exists (k, v). now split. }
  apply orb_false_iff in He as [He1 He2]. split; [exact He2|].
  intros t -> ->. now rewrite String.eqb_refl in He1.
Qed.

(** X4: no [Decimal128] of the annotator goes without its import.  In a
    schema whose [bsonType] values are type names or arrays of type names
    and which holds no [tsType] string of its own that mentions
    [Decimal128], whenever the annotated schema holds such a string
    [hasDecimal128] holds of the schema and [compileBSON] adds the import.
    (A [tsType] that the input itself supplies is passed on and asks for no
    import, see below.) *)
Theorem addTsType_Decimal128_imported (s : JsonValue) :
  markers_wf s = true ->
  uses_Decimal128 s = false ->
  uses_Decimal128 (addTsType s) = true ->
  hasDecimal128 s = true /\ imports s = [import_Decimal128].
Proof.
  intros Hwf Hown Hout.
  assert (Hs : hasDecimal128 s = true);
    [|split; [exact Hs|unfold imports; now rewrite Hs]].
  revert Hwf Hown Hout.
  induction s as [ | b | n | t | l IH | fs IH ] using JsonValue_tree_ind;
    intros Hwf Hown Hout;
    try (rewrite addTsType_scalar in Hout by exact I; discriminate).
  - rewrite addTsType_array in Hout. simpl in *.
    apply existsb_exists in Hout as [e' [Hin' He']].
    apply in_map_iff in Hin' as [e [<- Hin]].
    rewrite List.forallb_forall in Hwf. rewrite List.Forall_forall in IH.
    apply existsb_exists. exists e. split; [exact Hin|].
    apply (IH _ Hin); [apply (Hwf _ Hin)| |exact He'].
    destruct (uses_Decimal128 e) eqn:E; [|reflexivity].
    rewrite <- Hown. symmetry. apply existsb_exists. eauto.
  - rewrite addTsType_object in Hout. simpl in Hout.
    apply existsb_exists in Hout as [[k x] [Hin Hx]]. simpl in Hx.
    apply In_rebuild in Hin as [[]|[v [Hin ->]]].
    apply In_with_tsType_hint in Hin as [Hin|[-> [t [-> Hhint]]]].
    + destruct (uses_Decimal128_entry fs Hown k v Hin) as [Hv Hts].
      rewrite List.Forall_forall in IH. specialize (IH _ Hin). simpl in IH.
      pose proof Hwf as Hnode. simpl in Hwf.
      rewrite List.forallb_forall in Hwf. specialize (Hwf _ Hin).
      simpl in Hwf. apply andb_true_iff in Hwf as [Hk Hwv].
      apply orb_true_iff in Hx as [Hx|Hx].
      * apply andb_true_iff in Hx as [Hk' Hx]. apply String.eqb_eq in Hk'.
        destruct (addTsType v) as [ | | | t' | | ] eqn:Ev; try discriminate.
        apply addTsType_string in Ev. now rewrite (Hts t' Hk' Ev) in Hx.
      * specialize (IH Hwv Hv Hx). rewrite hasDecimal128_object.
        apply existsb_exists. exists (k, v). split; [exact Hin|].
        apply scan_entry_value; [|exact IH]. intros [-> _].
        simpl in Hk. apply name_or_names_inert in Hk. congruence.
    + rewrite addTsType_scalar in Hx by exact I. simpl in Hx.
      rewrite orb_false_r in Hx. now apply (hint_Decimal128_node fs t).
Qed.

Lemma addTsType_Decimal128_imported_witness :
  let s :=
    JObj [("properties",
           JObj [("amt", JObj [("bsonType", JArr [JStr "null"; JStr "decimal"])])])]
  in
  hasDecimal128 s = true /\ imports s = [import_Decimal128].
Proof.
  intros s. apply (addTsType_Decimal128_imported s).
  - reflexivity.
  - reflexivity.
  - vm_compute. reflexivity.
Defined.

(** A [tsType] that the schema itself supplies is passed on as it is, and
    no import comes with it. *)
Example supplied_Decimal128_not_imported :
  let s := JObj [("bsonType", JStr "objectId"); ("tsType", JStr "Decimal128")] in
  markers_wf s = true
  /\ addTsType s = s
  /\ uses_Decimal128 (addTsType s) = true
  /\ imports s = [].
Proof. repeat split; vm_compute; reflexivity. Qed.

(** X5: a schema in which no object has a [bsonType] key never asks for the
    import, whatever else it holds (a [type], an [enum] value or a title
    ["decimal"] does not count). *)
Theorem hasDecimal128_without_bsonType (s : JsonValue) :
  no_bsonType s = true -> hasDecimal128 s = false /\ imports s = [].
Proof.
  intros Hno. assert (Hs : hasDecimal128 s = false);
    [|split; [exact Hs|unfold imports; now rewrite Hs]].
  induction s as [ | b | n | t | l IH | fs IH ] using JsonValue_tree_ind;
    try reflexivity.
  - simpl in *. induction IH as [|e l He _ IHl]; simpl in *; [reflexivity|].
    apply andb_true_iff in Hno as [Hne Hnl]. now rewrite He, IHl.
  - simpl in Hno. apply andb_true_iff in Hno as [Hk Hno].
    apply negb_true_iff in Hk. rewrite hasDecimal128_object.
    induction IH as [|[k v] fs Hv _ IHfs]; simpl in *; [reflexivity|].
    rewrite has_key_cons in Hk. apply orb_false_iff in Hk as [Hk1 Hk2].
    apply andb_true_iff in Hno as [Hnv Hnfs].
    rewrite (IHfs Hk2 Hnfs), orb_false_r.
    unfold scan_entry; simpl. rewrite Hk1, hasDecimal128_typeof. auto.
Qed.

Lemma hasDecimal128_without_bsonType_witness :
  let s := JObj [("type", JStr "decimal"); ("enum", JArr [JStr "decimal"]);
                 ("title", JStr "decimal")] in
  hasDecimal128 s = false /\ imports s = [].
Proof.
  intros s. apply (hasDecimal128_without_bsonType s). reflexivity.
Defined.

(** X6: the import does not need a hint.  An object with an [enum] key whose
    [bsonType] is ["decimal"], scanned in a schema, makes [compileBSON] add
    the import although [addTsType] gives that object no hint. *)
Theorem enum_decimal_imported_unhinted (s : JsonValue) (fs : JsonObject) :
  Scanned s (JObj fs) ->
  has_key "enum" fs = true ->
  obj_get "bsonType" fs = Some (JStr "decimal") ->
  imports s = [import_Decimal128]
  /\ hint_of fs = None
  /\ exists fs', addTsType (JObj fs) = JObj fs' /\ Unhinted fs fs'.
Proof.
  intros Hscan He Hget. split; [|split].
  - unfold imports. rewrite (scanned_hasDecimal128 _ _ Hscan); [reflexivity|].
    apply requests_hasDecimal128. exists fs, (JStr "decimal").
    split; [reflexivity|]. split; [now apply obj_get_In|now left].
  - unfold hint_of. rewrite He. now destruct (buildTsType _).
  - apply addTsType_unhinted. now apply with_tsType_enum.
Qed.

Lemma enum_decimal_imported_unhinted_witness :
  let fs := [("bsonType", JStr "decimal"); ("enum", JArr [JNum 1; JNum 2])] in
  let s := JObj [("properties", JObj [("amt", JObj fs)])] in
  imports s = [import_Decimal128]
  /\ hint_of fs = None
  /\ exists fs', addTsType (JObj fs) = JObj fs' /\ Unhinted fs fs'.
Proof.
  intros fs s. apply (enum_decimal_imported_unhinted s fs).
  - eapply scan_value; [left; reflexivity|intros [H _]; discriminate H|].
    eapply scan_value; [left; reflexivity|intros [H _]; discriminate H|].
    constructor.
  - reflexivity.
  - reflexivity.
Defined.

(** ** The banner handed to the compiler *)

Lemma string_append_assoc (a b c : string) :
  String.append (String.append a b) c = String.append a (String.append b c).
Proof.
  induction a as [|x a IH]; [reflexivity|].
  change (String x (String.append (String.append a b) c)
          = String x (String.append a (String.append b c))).
  now rewrite IH.
Qed.

(** Joining with one more line at the end. *)
Lemma concat_last_cons sep (a : string) (l : list string) (x : string) :
  String.concat sep ((a :: l) ++ [x])
  = String.append (String.concat sep (a :: l)) (String.append sep x).
Proof.
  revert a. induction l as [|b l IH]; intros a; [reflexivity|].
  change (String.concat sep ((a :: b :: l) ++ [x]))
    with (String.append a (String.append sep
                             (String.concat sep ((b :: l) ++ [x])))).
  rewrite IH.
  change (String.concat sep (a :: b :: l))
    with (String.append a (String.append sep (String.concat sep (b :: l)))).
  now rewrite !string_append_assoc.
Qed.

Lemma concat_last sep (l : list string) (x : string) :
  String.concat sep (l ++ [x])
  = match l with
    | [] => x
    | _ => String.append (String.concat sep l) (String.append sep x)
    end.
Proof. destruct l as [|a l]; [reflexivity|apply concat_last_cons]. Qed.

Lemma DEFAULT_OPTIONS_banner cwd :
  DEFAULT_OPTIONS cwd !! "bannerComment" = Some (OLines banner_lines).
Proof. reflexivity. Qed.

(** X7: the import is the last line of the banner and the caller cannot
    drop it.  Whatever banner lines the merge gives, the banner string is
    their join when the schema needs no import, and that join followed by a
    line feed and the import line when it does; with an empty
    [bannerComment] the banner is the import line alone. *)
Theorem compileBSON_import_last (cwd : string) (Output : Type)
        (compileJSON : JsonValue -> string -> CompileOptions -> Output)
        (schema : JsonValue) (options : option CompileOptions)
        (lines : list string) :
  mergedOptions cwd options !! "bannerComment" = Some (OLines lines) ->
  exists opts,
    compileBSON cwd Output compileJSON schema options
    = Some (compileJSON (addTsType schema) "" opts)
    /\ opts !! "bannerComment"
       = Some (OString
                 (if hasDecimal128 schema then
                    match lines with
                    | [] => import_Decimal128
                    | _ => String.append (String.concat newline lines)
                             (String.append newline import_Decimal128)
                    end
                  else String.concat newline lines)).
Proof.
  intros Hbanner. unfold compileBSON. rewrite Hbanner.
  eexists. split; [reflexivity|]. rewrite lookup_insert_eq. do 2 f_equal.
  unfold imports. destruct (hasDecimal128 schema).
  - apply concat_last.
  - now rewrite app_nil_r.
Qed.

Lemma compileBSON_import_last_witness :
  let compileJSON := fun (s : JsonValue) (name : string) (o : CompileOptions) =>
                       (s, name, o) in
  let schema := JObj [("bsonType", JStr "decimal")] in
  let options : option CompileOptions :=
    Some {[ "bannerComment" := OLines [] ]} in
  exists opts,
    compileBSON "/" _ compileJSON schema options
    = Some (compileJSON (addTsType schema) "" opts)
    /\ opts !! "bannerComment"
       = Some (OString
                 (if hasDecimal128 schema then
                    match @nil string with
                    | [] => import_Decimal128
                    | _ => String.append (String.concat newline [])
                             (String.append newline import_Decimal128)
                    end
                  else String.concat newline [])).
Proof.
  intros compileJSON schema options.
  apply (compileBSON_import_last "/" _ compileJSON schema options []).
  vm_compute. reflexivity.
Defined.

(** X8: a caller who gives no [bannerComment] (no options at all, or options
    without that key) always reaches the compiler, with the default banner
    and, when needed, the import. *)
Theorem compileBSON_default_banner (cwd : string) (Output : Type)
        (compileJSON : JsonValue -> string -> CompileOptions -> Output)
        (schema : JsonValue) (options : option CompileOptions) :
  default ∅ options !! "bannerComment" = None ->
  exists opts,
    compileBSON cwd Output compileJSON schema options
    = Some (compileJSON (addTsType schema) "" opts)
    /\ opts !! "bannerComment"
       = Some (OString (String.concat newline (banner_lines ++ imports schema))).
Proof.
  intros Habsent. unfold compileBSON.
  rewrite mergedOptions_lookup, Habsent, DEFAULT_OPTIONS_banner.
  eexists. split; [reflexivity|]. now rewrite lookup_insert_eq.
Qed.

Lemma compileBSON_default_banner_witness :
  let compileJSON := fun (s : JsonValue) (name : string) (o : CompileOptions) =>
                       (s, name, o) in
  let schema := JObj [("bsonType", JStr "date")] in
  exists opts,
    compileBSON "/" _ compileJSON schema None
    = Some (compileJSON (addTsType schema) "" opts)
    /\ opts !! "bannerComment"
       = Some (OString (String.concat newline (banner_lines ++ imports schema))).
Proof.
  intros compileJSON schema.
  apply (compileBSON_default_banner "/" _ compileJSON schema None).
  reflexivity.
Defined.

(** X9: a [bannerComment] key in the options of the caller always overrides
    the default, whatever its value.  An array of lines is used as it is; a
    string is spread into its characters, which become the lines; on
    [undefined], [null], a boolean or a plain object the spread throws and
    the call fails before the compiler is reached. *)
Theorem compileBSON_banner_overridden (cwd : string) (Output : Type)
        (compileJSON : JsonValue -> string -> CompileOptions -> Output)
        (schema : JsonValue) (options : CompileOptions) (v : OptionValue) :
  options !! "bannerComment" = Some v ->
  mergedOptions cwd (Some options) !! "bannerComment" = Some v
  /\ match v with
     | OLines lines =>
         exists opts,
           compileBSON cwd Output compileJSON schema (Some options)
           = Some (compileJSON (addTsType schema) "" opts)
           /\ opts !! "bannerComment"
              = Some (OString (String.concat newline (lines ++ imports schema)))
     | OString s =>
         exists opts,
           compileBSON cwd Output compileJSON schema (Some options)
           = Some (compileJSON (addTsType schema) "" opts)
           /\ opts !! "bannerComment"
              = Some (OString
                        (String.concat newline (characters s ++ imports schema)))
     | OBool _ | ONull | OObject _ | OUndefined =>
         compileBSON cwd Output compileJSON schema (Some options) = None
     end.
Proof.
  intros Hv.
  assert (Hm : mergedOptions cwd (Some options) !! "bannerComment" = Some v)
    by (rewrite mergedOptions_lookup; simpl; now rewrite Hv).
  split; [exact Hm|]. unfold compileBSON. rewrite Hm.
  destruct v; try reflexivity;
    (eexists; split; [reflexivity|]; now rewrite lookup_insert_eq).
Qed.

Lemma compileBSON_banner_overridden_witness :
  let compileJSON := fun (s : JsonValue) (name : string) (o : CompileOptions) =>
                       (s, name, o) in
  let options : CompileOptions := {[ "bannerComment" := OString "ab" ]} in
  let schema := JObj [("bsonType", JStr "decimal")] in
  mergedOptions "/" (Some options) !! "bannerComment" = Some (OString "ab")
  /\ exists opts,
      compileBSON "/" _ compileJSON schema (Some options)
      = Some (compileJSON (addTsType schema) "" opts)
      /\ opts !! "bannerComment"
         = Some (OString
                   (String.concat newline (characters "ab" ++ imports schema))).
Proof.
  intros compileJSON options schema.
  apply (compileBSON_banner_overridden "/" _ compileJSON schema options
                                       (OString "ab")).
  reflexivity.
Defined.

(** The banner of a string [bannerComment], and the failure on
    [undefined]. *)
Example compileBSON_banner_string :
  compileBSON "/" _ (fun (s : JsonValue) (name : string) (o : CompileOptions) =>
                       o !! "bannerComment")
              (JObj [("bsonType", JStr "decimal")])
              (Some {[ "bannerComment" := OString "ab" ]})
  = Some (Some (OString
                  (String.append "a"
                     (String.append newline
                        (String.append "b"
                           (String.append newline import_Decimal128)))))).
Proof. vm_compute. reflexivity. Qed.

Example compileBSON_banner_undefined :
  compileBSON "/" _ (fun (s : JsonValue) (name : string) (o : CompileOptions) =>
                       o !! "bannerComment")
              (JObj []) (Some {[ "bannerComment" := OUndefined ]})
  = None.
Proof. vm_compute. reflexivity. Qed.

(** X10: the options handed to the compiler have the keys of the caller's
    options and the keys of the defaults, no more and no fewer: a caller can
    add keys and cannot remove a default. *)
Theorem compileBSON_option_keys (cwd : string) (Output : Type)
        (compileJSON : JsonValue -> string -> CompileOptions -> Output)
        (schema : JsonValue) (options : option CompileOptions)
        (lines : list string) :
  mergedOptions cwd options !! "bannerComment" = Some (OLines lines) ->
  exists opts,
    compileBSON cwd Output compileJSON schema options
    = Some (compileJSON (addTsType schema) "" opts)
    /\ dom opts = dom (default ∅ options) ∪ dom (DEFAULT_OPTIONS cwd).
Proof.
  intros Hbanner. unfold compileBSON. rewrite Hbanner.
  eexists. split; [reflexivity|].
  rewrite dom_insert_L. unfold mergedOptions. rewrite dom_union_L.
  assert (Hin : "bannerComment" ∈ dom (DEFAULT_OPTIONS cwd))
    by (apply elem_of_dom; rewrite DEFAULT_OPTIONS_banner; eauto).
  clear Hbanner. apply set_eq. intros k.
  rewrite !elem_of_union, elem_of_singleton. split; [|tauto].
  intros [->|H]; [now right|exact H].
Qed.

Lemma compileBSON_option_keys_witness :
  let compileJSON := fun (s : JsonValue) (name : string) (o : CompileOptions) =>
                       (s, name, o) in
  let options : option CompileOptions :=
    Some {[ "prettier" := OObject [] ]} in
  exists opts,
    compileBSON "/" _ compileJSON (JObj []) options
    = Some (compileJSON (addTsType (JObj [])) "" opts)
    /\ dom opts = dom (default ∅ options) ∪ dom (DEFAULT_OPTIONS "/").
Proof.
  intros compileJSON options.
  apply (compileBSON_option_keys "/" _ compileJSON (JObj []) options
                                 banner_lines).
  vm_compute. reflexivity.
Defined.

(** ** More on the configuration file *)

Lemma strings_of_JStr (l : list string) :
  forallb typeof_string (List.map JStr l) = true
  /\ as_strings (List.map JStr l) = l.
Proof.
  unfold as_strings. induction l as [|s l [IH1 IH2]]; [split; reflexivity|].
  split; [exact IH1|].
  change (s :: omap (fun e => match e with JStr s => Some s | _ => None end)
                    (List.map JStr l) = s :: l).
  now rewrite IH2.
Qed.

(** X11: [parseConfig] gives back every [Options] value: the text that
    parses to the object [JSON.stringify] makes of [o] is read as [o], no
    field lost or changed. *)
Theorem parseConfig_round_trip (JSON_parse : string -> option JsonValue)
        (config : string) (o : Options) :
  JSON_parse config = Some (JObj (options_to_json o)) ->
  parseConfig JSON_parse config = o.
Proof.
  intros Hparse. unfold parseConfig, parseConfig_try. rewrite Hparse.
  destruct o as [banner e1 e2 e3 e4 p [uri db]].
  cbn -[as_strings forallb].
  destruct (strings_of_JStr banner) as [-> ->]. reflexivity.
Qed.

Lemma parseConfig_round_trip_witness :
  let o := {| bannerComment := ["// generated"];
              enableConstEnums := false;
              ignoreMinAndMaxItems := true;
              strictIndexSignatures := true;
              unknownAny := false;
              path := "types";
              env := {| MONGODB_URI := "DB_URI"; MONGODB_DATABASE := "DB_NAME" |}
           |} in
  let JSON_parse := fun s : string =>
                      if String.eqb s "a full file"
                      then Some (JObj (options_to_json o)) else None in
  parseConfig JSON_parse "a full file" = o.
Proof.
  intros o JSON_parse.
  apply (parseConfig_round_trip JSON_parse "a full file" o).
  reflexivity.
Defined.

(** X12: the fields are read one by one.  Setting a key of the file to any
    value changes no field of the result but the one of that name; setting a
    key that [parseConfig] does not read changes nothing. *)
Theorem parseConfig_field_by_field (JSON_parse : string -> option JsonValue)
        (config config' : string) (file : JsonObject)
        (key : string) (v : JsonValue) :
  JSON_parse config = Some (JObj file) ->
  JSON_parse config' = Some (JObj (obj_set key v file)) ->
  same_but key (parseConfig JSON_parse config) (parseConfig JSON_parse config')
  /\ (~ In key recognised_keys ->
      parseConfig JSON_parse config' = parseConfig JSON_parse config).
Proof.
  intros H H'. unfold parseConfig, parseConfig_try. rewrite H, H'.
  cbn [mbind option_bind]. split.
  - unfold same_but.
    cbn [bannerComment enableConstEnums ignoreMinAndMaxItems
         strictIndexSignatures unknownAny path env].
    repeat split; intros Hk; now rewrite obj_get_obj_set_ne by congruence.
  - intros Hk. simpl in Hk.
    rewrite !obj_get_obj_set_ne by (intros E; tauto). reflexivity.
Qed.

Lemma parseConfig_field_by_field_witness :
  let JSON_parse := fun s : string =>
                      if String.eqb s "before"
                      then Some (JObj [("path", JStr "out")])
                      else if String.eqb s "after"
                      then Some (JObj (obj_set "unknownAny" (JNum 0)
                                         [("path", JStr "out")]))
                      else None in
  same_but "unknownAny" (parseConfig JSON_parse "before")
           (parseConfig JSON_parse "after")
  /\ (~ In "unknownAny" recognised_keys ->
      parseConfig JSON_parse "after" = parseConfig JSON_parse "before").
Proof.
  intros JSON_parse.
  apply (parseConfig_field_by_field JSON_parse "before" "after"
                                    [("path", JStr "out")] "unknownAny" (JNum 0));
    reflexivity.
Defined.

(** X13: [loadConfig] returns on every state of the files, reads no file
    but [./bson2ts.json], and falls back to [defaultOptions] both when that
    file is absent ([JSON.parse] reading ["{}"] as the empty object) and when
    its text does not parse. *)
Theorem loadConfig_fallback (JSON_parse : string -> option JsonValue)
        (files : gmap string string) :
  JSON_parse "{}" = Some (JObj []) ->
  is_Some (loadConfig JSON_parse files)
  /\ (files !! configPath = None ->
      loadConfig JSON_parse files = Some defaultOptions)
  /\ (forall text, files !! configPath = Some text ->
                   JSON_parse text = None ->
                   loadConfig JSON_parse files = Some defaultOptions)
  /\ (forall files' : gmap string string,
         files' !! configPath = files !! configPath ->
         loadConfig JSON_parse files' = loadConfig JSON_parse files).
Proof.
  intros Hempty. unfold loadConfig, readConfig, existsSync, readFileSync.
  repeat split.
  - destruct (files !! configPath) as [text|] eqn:E.
    + rewrite bool_decide_eq_true_2 by eauto. simpl. eauto.
    + rewrite bool_decide_eq_false_2 by (intros [? ?]; discriminate). simpl. eauto.
  - intros E. rewrite E.
    rewrite bool_decide_eq_false_2 by (intros [? ?]; discriminate). simpl.
    unfold parseConfig, parseConfig_try. now rewrite Hempty.
  - intros text E Hbad. rewrite E. rewrite bool_decide_eq_true_2 by eauto.
    simpl. unfold parseConfig, parseConfig_try. now rewrite Hbad.
  - intros files' ->. reflexivity.
Qed.

Lemma loadConfig_fallback_witness :
  let JSON_parse := fun s : string =>
                      if String.eqb s "{}" then Some (JObj []) else None in
  let files : gmap string string := {[ configPath := "not json" ]} in
  is_Some (loadConfig JSON_parse files)
  /\ (files !! configPath = None ->
      loadConfig JSON_parse files = Some defaultOptions)
  /\ (forall text, files !! configPath = Some text ->
                   JSON_parse text = None ->
                   loadConfig JSON_parse files = Some defaultOptions)
  /\ (forall files' : gmap string string,
         files' !! configPath = files !! configPath ->
         loadConfig JSON_parse files' = loadConfig JSON_parse files).
Proof.
  intros JSON_parse files.
  apply (loadConfig_fallback JSON_parse files). reflexivity.
Defined.

(** X14: [prettierOptions] always sets [parser] to ["typescript"], over
    whatever the resolved configuration says, keeps every other option of
    that configuration, and fails only when [resolveConfig] does. *)
Theorem prettierOptions_parser (Value : Type) (of_string : string -> Value)
        (resolveConfig : string -> Resolved Value) (path : string) :
  match prettierOptions Value of_string resolveConfig path with
  | Some options =>
      options !! "parser" = Some (of_string "typescript")
      /\ forall k, k <> "parser" ->
                   options !! k
                   = match resolveConfig path with
                     | Config found => found !! k
                     | _ => None
                     end
  | None => resolveConfig path = Rejected
  end.
Proof.
  unfold prettierOptions. destruct (resolveConfig path) as [ | | found ];
    [reflexivity| |]; (split; [apply lookup_insert_eq|]); intros k Hk;
    rewrite lookup_insert_ne by congruence; [apply lookup_empty|reflexivity].
Qed.

(** ** The files written *)

(** X15: the callback of [main] writes a file exactly when the collection
    has a schema, the compile succeeds on it and its [title] is a non-empty
    string; the file is then [./src/__generated__/<title>.ts] and holds the
    output of the compile.  A collection without a schema never reaches the
    compiler, and a failed compile is reported before a missing title. *)
Theorem generate_written (cwd : string)
        (compileJSON : JsonValue -> string -> CompileOptions -> option string)
        (opts : option CompileOptions) (schema : option JsonObject)
        (collectionName : string) :
  (forall file content,
      snd (generate cwd compileJSON opts schema collectionName)
      = Written file content
      <-> exists s title,
          schema = Some s
          /\ compileBSON cwd _ compileJSON (JObj s) opts = Some (Some content)
          /\ obj_get "title" s = Some (JStr title)
          /\ title <> ""
          /\ file = String.append "./src/__generated__/"
                      (String.append title ".ts"))
  /\ (schema = None ->
      snd (generate cwd compileJSON opts schema collectionName) = Skipped)
  /\ (forall s,
         schema = Some s ->
         (forall content,
             compileBSON cwd _ compileJSON (JObj s) opts <> Some (Some content)) ->
         snd (generate cwd compileJSON opts schema collectionName)
         = Thrown CompileFailed).
Proof.
  split; [|split].
  - intros file content. unfold generate; simpl. split.
    + destruct schema as [s|]; [|discriminate].
      destruct (compileBSON _ _ _ _ _) as [[output|]|] eqn:Ec;
        try discriminate.
      destruct (obj_get "title" s) as [[ | | | title | | ]|] eqn:Eg;
        try discriminate.
      destruct (truthy title) eqn:Et; [|discriminate].
      intros [= <- <-]. exists s, title.
      split; [reflexivity|]. split; [exact Ec|]. split; [exact Eg|].
      split; [|reflexivity]. intros ->. discriminate Et.
    + intros [s [title [-> [-> [-> [Ht ->]]]]]].
      destruct (truthy title) eqn:Et; [reflexivity|].
      exfalso. apply Ht. unfold truthy in Et. apply negb_false_iff in Et.
      now apply String.eqb_eq in Et.
  - intros ->. reflexivity.
  - intros s -> Hfail. unfold generate; simpl.
    destruct (compileBSON _ _ _ _ _) as [[output|]|]; try reflexivity.
    now destruct (Hfail output).
Qed.

(** With a string given as [bannerComment] the compile goes through and the
    file is written. *)
Example generate_string_banner :
  snd (generate "/" (fun _ _ _ => Some "export type T = Date;")
                (Some {[ "bannerComment" := OString "ab" ]})
                (Some [("title", JStr "T"); ("bsonType", JStr "date")]) "ts")
  = Written "./src/__generated__/T.ts" "export type T = Date;".
Proof. vm_compute. reflexivity. Qed.

(** ** Key order and the detector *)

(** X16: [hasDecimal128] does not depend on the order of the entries of an
    object or of the elements of an array. *)
Theorem hasDecimal128_order (fs fs' : JsonObject) (l l' : list JsonValue) :
  Permutation fs fs' -> Permutation l l' ->
  hasDecimal128 (JObj fs) = hasDecimal128 (JObj fs')
  /\ hasDecimal128 (JArr l) = hasDecimal128 (JArr l').
Proof.
  assert (Hperm : forall (A : Type) (p : A -> bool) (a b : list A),
             Permutation a b -> existsb p a = existsb p b).
  { intros A p a b H. induction H as [|x a b _ IH|x y a|a b c _ IH1 _ IH2];
      simpl; [reflexivity|now rewrite IH| |congruence].
    destruct (p x), (p y); reflexivity. }
  intros Hfs Hl. split.
  - rewrite !hasDecimal128_object. now apply Hperm.
  - simpl. now apply Hperm.
Qed.

Lemma hasDecimal128_order_witness :
  hasDecimal128 (JObj [("title", JStr "t"); ("bsonType", JStr "decimal")])
  = hasDecimal128 (JObj [("bsonType", JStr "decimal"); ("title", JStr "t")])
  /\ hasDecimal128 (JArr [JNull; JObj [("bsonType", JStr "decimal")]])
     = hasDecimal128 (JArr [JObj [("bsonType", JStr "decimal")]; JNull]).
Proof.
  apply (hasDecimal128_order
           [("title", JStr "t"); ("bsonType", JStr "decimal")]
           [("bsonType", JStr "decimal"); ("title", JStr "t")]
           [JNull; JObj [("bsonType", JStr "decimal")]]
           [JObj [("bsonType", JStr "decimal")]; JNull]);
    apply Permutation_swap.
Defined.
